(** * Optimistic vote reconciliation and school administration view

    A shallow embedding of the two client components that carry logic:

    - the post page ([src/app/school/[id]/posts/[postId]/page.tsx]):
      [handleVote] (optimistic update, vote request, rollback) and
      [handleDelete];
    - the school admin view ([ClientSchoolAdminView]): [fetchSchool],
      [handleMemberSelection], [handleSelectAllMembers].

    Event handlers are written in a small state-and-trace monad with
    exceptions ([Js.M]): the component state is threaded explicitly, every
    observable effect (state commit, network request, alert, console error,
    navigation) is appended to a chronological log, and [throw]/[try_catch]/
    [try_finally] follow the JavaScript control flow.  The network is an
    input: every request is answered by an outcome supplied by the
    environment.

    Numbers: [id] and [votes] are integer counts served by the API; they are
    modelled in [Z] (the double-precision representation is exact on the
    safe-integer range in which such counts live). *)

From stdpp Require Import base option list strings pretty.
From Stdlib Require Import ZArith Lia.

Local Open Scope Z_scope.

(** ** The handler monad *)
Module Js.

Inductive Method := GET | POST | DELETE.

(** Request bodies are kept structured: [JSON.stringify] is not unfolded. *)
#[local] Unset Elimination Schemes.
Inductive Json :=
| JNull
| JBool (b : bool)
| JNum (n : Z)
| JStr (s : string)
| JArr (items : list Json)
| JObj (fields : list (string * Json)).
#[local] Set Elimination Schemes.

Record Request := {
  url : string;
  method : Method;
  headers : list (string * string);
  body : option Json
}.

(** [fetch(url)] with no init object. *)
Definition get_request (u : string) : Request :=
  {| url := u; method := GET; headers := []; body := None |}.

(** What the environment answers to one request: the promise rejects
    (transport failure) or resolves to a response with a status code and
    a payload, [None] when the body cannot be decoded. *)
Inductive FetchOutcome (B : Type) :=
| Rejected
| Resolved (status : Z) (payload : option B).
Arguments Rejected {B}.
Arguments Resolved {B} status payload.

Record Response (B : Type) := { status : Z; payload : option B }.
Arguments status {B} r.
Arguments payload {B} r.

(** [Response.ok]: the status is in the range 200-299. *)
Definition ok {B} (r : Response B) : bool :=
  (200 <=? status r) && (status r <=? 299).

(** Whether the environment's answer counts as success for a caller that
    awaits the request and then tests [response.ok]. *)
Definition succeeded {B} (o : FetchOutcome B) : bool :=
  match o with
  | Rejected => false
  | Resolved st _ => (200 <=? st) && (st <=? 299)
  end.

Inductive Event (S : Type) :=
| EvSet (s : S)                    (* a state setter committed state [s] *)
| EvFetch (r : Request)            (* a request was issued *)
| EvAlert (msg : string)
| EvConsoleError (msg : string)
| EvRouterBack.
Arguments EvSet {S} s.
Arguments EvFetch {S} r.
Arguments EvAlert {S} msg.
Arguments EvConsoleError {S} msg.
Arguments EvRouterBack {S}.

Record World (S : Type) := { state : S; log : list (Event S) }.
Arguments state {S} w.
Arguments log {S} w.

Inductive Result (A : Type) :=
| Value (a : A)
| Thrown (e : string).
Arguments Value {A} a.
Arguments Thrown {A} e.

Definition M (S A : Type) : Type := World S → Result A * World S.

Section Ops.
Context {S : Type}.

Definition ret {A} (a : A) : M S A := λ w, (Value a, w).

Definition bind {A B} (m : M S A) (k : A → M S B) : M S B :=
  λ w, match m w with
       | (Value a, w') => k a w'
       | (Thrown e, w') => (Thrown e, w')
       end.

Definition throw {A} (e : string) : M S A := λ w, (Thrown e, w).

(** [try { m } catch (err) { h err }] *)
Definition try_catch {A} (m : M S A) (h : string → M S A) : M S A :=
  λ w, match m w with
       | (Value a, w') => (Value a, w')
       | (Thrown e, w') => h e w'
       end.

(** [try { m } finally { fin }]: [fin] always runs; when it completes
    normally the completion of [m] is kept. *)
Definition try_finally {A} (m : M S A) (fin : M S unit) : M S A :=
  λ w, let '(r, w') := m w in
       match fin w' with
       | (Value _, w'') => (r, w'')
       | (Thrown e, w'') => (Thrown e, w'')
       end.

Definition emit (e : Event S) : M S unit :=
  λ w, (Value (), {| state := state w; log := log w ++ [e] |}).

Definition get : M S S := λ w, (Value (state w), w).

(** A [useState] setter called with an updater function.  The updater is
    applied to the current state at the call, and the committed state is
    logged. *)
Definition modify (f : S → S) : M S unit :=
  λ w, let s := f (state w) in
       (Value (), {| state := s; log := log w ++ [EvSet s] |}).

Definition alert (msg : string) : M S unit := emit (EvAlert msg).
Definition console_error (msg : string) : M S unit := emit (EvConsoleError msg).
Definition router_back : M S unit := emit EvRouterBack.

(** [fetch(req)] issues the request and returns a promise, which is the
    outcome the environment has for it. *)
Definition fetch {B} (req : Request) (o : FetchOutcome B) : M S (FetchOutcome B) :=
  λ w, (Value o, {| state := state w; log := log w ++ [EvFetch req] |}).

(** [await p]: a rejected promise throws at the await. *)
Definition await {B} (p : FetchOutcome B) : M S (Response B) :=
  match p with
  | Rejected => throw "TypeError: Failed to fetch"
  | Resolved st pl => ret {| status := st; payload := pl |}
  end.

(** [await response.json()] *)
Definition json {B} (r : Response B) : M S B :=
  match payload r with
  | Some b => ret b
  | None => throw "SyntaxError: Unexpected token in JSON"
  end.

(** Run a handler from a state with an empty log. *)
Definition run {A} (m : M S A) (s : S) : Result A * World S :=
  m {| state := s; log := [] |}.

Definition final_state {A} (m : M S A) (s : S) : S := state (run m s).2.
Definition trace {A} (m : M S A) (s : S) : list (Event S) := log (run m s).2.

End Ops.

#[global] Instance M_ret {S} : MRet (M S) := λ A, @ret S A.
#[global] Instance M_bind {S} : MBind (M S) := λ A B k m, @bind S A B m k.

(** The requests of a trace, in the order they were issued. *)
Definition requests {S} (t : list (Event S)) : list Request :=
  omap (λ e, match e with EvFetch r => Some r | _ => None end) t.

(** The states committed in a trace, in order. *)
Definition commits {S} (t : list (Event S)) : list S :=
  omap (λ e, match e with EvSet s => Some s | _ => None end) t.

End Js.

Import Js.

(** ** The post page *)
Module PostPage.

Inductive Vote := up | down.

#[global] Instance Vote_eq_dec : EqDecision Vote.
Proof. solve_decision. Defined.

(** [interface Votable]: the fields shared by posts and comments, and the
    object spread [{ ...item, votes: v, user_vote: u }]. *)
Class Votable (T : Type) := {
  id : T → Z;
  votes : T → Z;
  user_vote : T → option Vote;
  spread_vote : T → Z → option Vote → T
}.

Record Comment := {
  comment_id : Z;
  comment_votes : Z;
  comment_user_vote : option Vote;
  comment_content : string;
  comment_created_at : string;
  comment_author : string
}.

Record Post := {
  post_id : Z;
  post_votes : Z;
  post_user_vote : option Vote;
  hub_id : Z;
  title : string;
  content : string;
  post_type : string;
  created_at : string;
  author : string;
  comments : list Comment
}.

#[global] Instance Comment_Votable : Votable Comment := {|
  id := comment_id;
  votes := comment_votes;
  user_vote := comment_user_vote;
  spread_vote c v u :=
    {| comment_id := comment_id c; comment_votes := v; comment_user_vote := u;
       comment_content := comment_content c;
       comment_created_at := comment_created_at c;
       comment_author := comment_author c |}
|}.

#[global] Instance Post_Votable : Votable Post := {|
  id := post_id;
  votes := post_votes;
  user_vote := post_user_vote;
  spread_vote p v u :=
    {| post_id := post_id p; post_votes := v; post_user_vote := u;
       hub_id := hub_id p; title := title p; content := content p;
       post_type := post_type p; created_at := created_at p;
       author := author p; comments := comments p |}
|}.

(** [{ ...prevPost, comments: cs }] *)
Definition with_comments (p : Post) (cs : list Comment) : Post :=
  {| post_id := post_id p; post_votes := post_votes p;
     post_user_vote := post_user_vote p;
     hub_id := hub_id p; title := title p; content := content p;
     post_type := post_type p; created_at := created_at p;
     author := author p; comments := cs |}.

(** The authenticated user of [useAuth()]; only [user.id] is read. *)
Record User := { user_id : string }.

Record ItemRef := { item_id : Z; isComment : bool }.

(** The [useState] cells of [PostPage]. *)
Record State := {
  post : option Post;
  loading : bool;
  error : option string;
  newComment : string;
  isSubmitting : bool;
  itemToDelete : option ItemRef
}.

Definition set_post (p : option Post) (s : State) : State :=
  {| post := p; loading := loading s; error := error s;
     newComment := newComment s; isSubmitting := isSubmitting s;
     itemToDelete := itemToDelete s |}.

Definition set_itemToDelete (i : option ItemRef) (s : State) : State :=
  {| post := post s; loading := loading s; error := error s;
     newComment := newComment s; isSubmitting := isSubmitting s;
     itemToDelete := i |}.

(** The two [let] variables of [handleVote] that the state updater
    assigns and the later code reads. *)
Record VoteVars := { originalVote : option Vote; voteChange : Z }.

Definition set_originalVote (o : option Vote) (v : VoteVars) : VoteVars :=
  {| originalVote := o; voteChange := voteChange v |}.
Definition set_voteChange (d : Z) (v : VoteVars) : VoteVars :=
  {| originalVote := originalVote v; voteChange := d |}.

(** [updateItem]: assigns [originalVote] and [voteChange] and returns the
    item with the vote applied. *)
Definition updateItem {T} `{Votable T} (newVote : Vote) (item : T)
    (vars : VoteVars) : T * VoteVars :=
  let vars := set_originalVote (user_vote item) vars in
  let newVoteState := Some newVote in
  let '(vars, newVoteState) :=
    if decide (originalVote vars = Some newVote) then
      (set_voteChange (if decide (newVote = up) then -1 else 1) vars, None)
    else if originalVote vars is Some _ then
      (set_voteChange (if decide (newVote = up) then 2 else -2) vars, newVoteState)
    else
      (set_voteChange (if decide (newVote = up) then 1 else -1) vars, newVoteState) in
  (spread_vote item (votes item + voteChange vars) newVoteState, vars).

(** [revertItem] *)
Definition revertItem {T} `{Votable T} (vars : VoteVars) (item : T) : T :=
  spread_vote item (votes item - voteChange vars) (originalVote vars).

(** [Array.prototype.map] with a callback that assigns outer variables:
    elements are visited left to right and the variables are threaded. *)
Fixpoint map_vars {A V} (f : A → V → A * V) (l : list A) (v : V) : list A * V :=
  match l with
  | [] => ([], v)
  | x :: l' =>
      let '(y, v1) := f x v in
      let '(ys, v2) := map_vars f l' v1 in
      (y :: ys, v2)
  end.

(** [let originalVote = null; let voteChange = 0;] *)
Definition initial_vars : VoteVars := {| originalVote := None; voteChange := 0 |}.

(** [c => c.id === itemId ? updateItem(c) : c] *)
Definition update_matching (itemId : Z) (newVote : Vote) (c : Comment)
    (vars : VoteVars) : Comment * VoteVars :=
  if decide (id c = itemId) then updateItem newVote c vars else (c, vars).

(** [c => c.id === itemId ? revertItem(c) : c] *)
Definition revert_matching (itemId : Z) (vars : VoteVars) (c : Comment) : Comment :=
  if decide (id c = itemId) then revertItem vars c else c.

(** The updater passed to the first [setPost] of [handleVote]. *)
Definition optimistic (itemId : Z) (isComment : bool) (newVote : Vote)
    (prevPost : option Post) (vars : VoteVars) : option Post * VoteVars :=
  match prevPost with
  | None => (None, vars)
  | Some prevPost =>
      if negb isComment then
        let '(p, vars) := updateItem newVote prevPost vars in (Some p, vars)
      else
        let '(cs, vars) :=
          map_vars (update_matching itemId newVote) (comments prevPost) vars in
        (Some (with_comments prevPost cs), vars)
  end.

(** The updater passed to [setPost] in the [catch] block. *)
Definition rollback (itemId : Z) (isComment : bool) (vars : VoteVars)
    (prevPost : option Post) : option Post :=
  match prevPost with
  | None => None
  | Some prevPost =>
      if negb isComment then Some (revertItem vars prevPost)
      else Some (with_comments prevPost
                   (map (revert_matching itemId vars) (comments prevPost)))
  end.

(** [setPost(updater)] only queues [updater]: React runs it when it next
    renders the component, which is after the handler has suspended at its
    first [await].  [render_queued] is that render, for an updater that
    assigns the handler's variables: the updater is applied to the current
    post, the new post is committed, and the values it assigned are what
    the handler finds in its variables when it resumes. *)
Definition render_queued (upd : option Post → VoteVars → option Post * VoteVars)
    (vars : VoteVars) : M State VoteVars :=
  s ← get;
  let '(p, vars) := upd (post s) vars in
  modify (set_post p);;
  mret vars.

Definition setPost (upd : option Post → option Post) : M State unit :=
  modify (λ s, set_post (upd (post s)) s).

Definition vote_json (v : option Vote) : Json :=
  match v with
  | Some up => JStr "up"
  | Some down => JStr "down"
  | None => JNull
  end.

(** [prev => prev ? { ...prev, comments: prev.comments.filter(c => c.id !== itemId) } : null] *)
Definition without_comment (itemId : Z) (prev : option Post) : option Post :=
  match prev with
  | Some prev =>
      Some (with_comments prev (filter (λ c, id c ≠ itemId) (comments prev)))
  | None => None
  end.

Section Handlers.
(** [process.env.NEXT_PUBLIC_BACKEND_URL], the user of [useAuth()], and
    the environment's answer to each request. *)
Variable backend : string.
Variable user : option User.
Variable net : Request → FetchOutcome Json.

Definition vote_request (u : User) (itemId : Z) (isComment : bool)
    (finalVoteType : option Vote) : Request :=
  {| url := backend +:+ "/hubs/posts/" +:+ pretty itemId +:+ "/vote";
     method := POST;
     headers := [("Content-Type", "application/json")];
     body := Some (JObj [("user_id", JStr (user_id u));
                         ("vote_type", vote_json finalVoteType);
                         ("is_comment", JBool isComment)]) |}.

Definition handleVote (itemId : Z) (isComment : bool) (newVote : Vote)
    : M State unit :=
  match user with
  | None => alert "Please log in to vote."
  | Some u =>
      let vars := initial_vars in
      (* Step 1: optimistic update; [setPost(updater)] queues the updater,
         which has not run yet *)
      let updater := optimistic itemId isComment newVote in
      (* Step 2: API call.  Up to the await the variables hold their
         initial values, so [originalVote] is still null here. *)
      let finalVoteType :=
        if decide (originalVote vars = Some newVote) then None
        else Some newVote in
      let req := vote_request u itemId isComment finalVoteType in
      (* the call of [fetch] issues the request and returns a promise; a
         failure surfaces at the [await], inside the [try] *)
      promise ← fetch req (net req);
      (* the handler suspends at the await: React renders, the queued
         updater runs and assigns [originalVote] and [voteChange] *)
      vars ← render_queued updater vars;
      try_catch
        (response ← await promise;
         if negb (ok response)
         then throw "Server failed to process the vote."
         else mret ())
        (λ err,
          console_error "Failed to submit vote:";;
          alert "There was an error submitting your vote. Please try again.";;
          (* Step 3: revert the optimistic update *)
          setPost (rollback itemId isComment vars))
  end.

Definition delete_request (itemId : Z) : Request :=
  {| url := backend +:+ "/hubs/posts/" +:+ pretty itemId;
     method := DELETE; headers := []; body := None |}.

Definition handleDelete : M State unit :=
  s ← get;
  match itemToDelete s with
  | None => mret ()
  | Some it =>
      try_finally
        (try_catch
           (let req := delete_request (item_id it) in
            _ ← fetch req (net req) ≫= await;
            if isComment it then
              setPost (without_comment (item_id it))
            else router_back)
           (λ err,
             console_error "Failed to delete item:";;
             alert "Failed to delete. Please try again."))
        (modify (set_itemToDelete None))
  end.

End Handlers.

(** *** The vote transition policy, as the specification words it *)

(** The vote count after a click on [r], for an item whose count was [v]
    and whose recorded vote was [v0]. *)
Definition spec_votes (v0 : option Vote) (r : Vote) (v : Z) : Z :=
  match v0, r with
  | Some up, up => v - 1          (* un-vote of an up-vote *)
  | Some down, down => v + 1      (* un-vote of a down-vote *)
  | Some down, up => v + 2        (* switch down to up *)
  | Some up, down => v - 2        (* switch up to down *)
  | None, up => v + 1             (* new up-vote *)
  | None, down => v - 1           (* new down-vote *)
  end.

(** The recorded vote after the click: absent when the click repeats the
    recorded vote (un-vote), [r] otherwise (switch or new vote). *)
Definition spec_user_vote (v0 : option Vote) (r : Vote) : option Vote :=
  if decide (v0 = Some r) then None else Some r.

(** The [vote_type] of the request: null exactly when the recorded vote
    equals the requested one, the requested vote in every other case. *)
Definition spec_vote_type (v0 : option Vote) (r : Vote) : option Vote :=
  if decide (v0 = Some r) then None else Some r.

(** The item after the click, as the policy prescribes it. *)
Definition spec_voted {T} `{Votable T} (r : Vote) (item : T) : T :=
  spread_vote item (spec_votes (user_vote item) r (votes item))
              (spec_user_vote (user_vote item) r).

(** The values the optimistic update leaves in the handler's variables
    after it has updated [item]. *)
Definition vars_after {T} `{Votable T} (r : Vote) (item : T) : VoteVars :=
  {| originalVote := user_vote item;
     voteChange := spec_votes (user_vote item) r (votes item) - votes item |}.

(** [itemId] identifies the comment in row [i]: that comment carries the
    id and no comment in another row does. *)
Definition identifies (itemId : Z) (cs : list Comment) (i : nat) (c : Comment) : Prop :=
  cs !! i = Some c ∧ id c = itemId ∧
  ∀ j d, cs !! j = Some d → id d = itemId → j = i.

(** *** Sample data used to exercise the handlers *)

Definition sample_comment (i v : Z) (uv : option Vote) : Comment :=
  {| comment_id := i; comment_votes := v; comment_user_vote := uv;
     comment_content := "Nice write-up"; comment_created_at := "2025-08-02";
     comment_author := "dana" |}.

Definition sample_post (v : Z) (uv : option Vote) (cs : list Comment) : Post :=
  {| post_id := 40; post_votes := v; post_user_vote := uv; hub_id := 3;
     title := "Week 1 notes"; content := "Summary of the first week";
     post_type := "thread"; created_at := "2025-08-01"; author := "lee";
     comments := cs |}.

Definition sample_state (p : option Post) (it : option ItemRef) : State :=
  {| post := p; loading := false; error := None; newComment := EmptyString;
     isSubmitting := false; itemToDelete := it |}.

Definition sample_user : User := {| user_id := "17" |}.

(** A post with score 10 that the user down-voted, with two comments: the
    user up-voted comment 7 and has not voted on comment 8. *)
Definition two_comments : list Comment :=
  [sample_comment 7 3 (Some up); sample_comment 8 0 None].
Definition loaded_post : Post := sample_post 10 (Some down) two_comments.
Definition loaded : State := sample_state (Some loaded_post) None.

(** The network is down; the server answers 500; the server answers 200. *)
Definition server_down : Request → FetchOutcome Json := λ _, Rejected.
Definition server_error : Request → FetchOutcome Json := λ _, Resolved 500 None.
Definition server_ok : Request → FetchOutcome Json := λ _, Resolved 200 None.

End PostPage.

(** ** The school admin view *)
Module SchoolAdmin.

(** [TeamMember], [Course] and [Cohort] are imported from [@/types]; the
    records below carry the fields this view reads and writes. *)
Record TeamMember := { member_id : Z; email : string; role : string }.
Record Course := {
  course_id : Z; course_name : string; moduleCount : Z; description : string
}.
Record Cohort := { cohort_id : Z; cohort_name : string }.

Record School := {
  school_id : Z;
  school_name : string;
  school_url : string;
  courses : list Course;
  cohorts : list Cohort;
  members : list TeamMember
}.

(** Decoded response bodies, with the fields [fetchSchool] reads.  The
    organization id arrives as an integer, on which [parseInt] is the
    identity. *)
Record SchoolData := { sd_id : Z; sd_name : string; sd_slug : string }.
Record CourseData := { cd_id : Z; cd_name : string }.
Record CohortData := { hd_id : Z; hd_name : string }.

(** The environment's answers to the four requests of [fetchSchool].  The
    members body may be [null] ([membersData || []]). *)
Record Network := {
  school_outcome : FetchOutcome SchoolData;
  members_outcome : FetchOutcome (option (list TeamMember));
  cohorts_outcome : FetchOutcome (list CohortData);
  courses_outcome : FetchOutcome (list CourseData)
}.

(** The [useState] cells read or written by the modelled handlers. *)
Record State := {
  school : option School;
  loading : bool;
  selectedMembers : list TeamMember;
  memberToDelete : option TeamMember;
  isDeleteConfirmOpen : bool
}.

Definition set_school (x : option School) (s : State) : State :=
  {| school := x; loading := loading s; selectedMembers := selectedMembers s;
     memberToDelete := memberToDelete s;
     isDeleteConfirmOpen := isDeleteConfirmOpen s |}.

Definition set_loading (b : bool) (s : State) : State :=
  {| school := school s; loading := b; selectedMembers := selectedMembers s;
     memberToDelete := memberToDelete s;
     isDeleteConfirmOpen := isDeleteConfirmOpen s |}.

Definition set_selectedMembers (l : list TeamMember) (s : State) : State :=
  {| school := school s; loading := loading s; selectedMembers := l;
     memberToDelete := memberToDelete s;
     isDeleteConfirmOpen := isDeleteConfirmOpen s |}.

(** All four requests resolve with a success status. *)
Definition all_succeeded (net : Network) : bool :=
  succeeded (school_outcome net) && succeeded (members_outcome net)
  && succeeded (cohorts_outcome net) && succeeded (courses_outcome net).

(** [await Promise.all([p1, p2, p3, p4])]: throws when one of the promises
    is rejected, otherwise yields the four responses. *)
Definition promise_all4 {S B1 B2 B3 B4}
    (p1 : FetchOutcome B1) (p2 : FetchOutcome B2)
    (p3 : FetchOutcome B3) (p4 : FetchOutcome B4)
    : M S (Response B1 * Response B2 * Response B3 * Response B4) :=
  r1 ← await p1; r2 ← await p2; r3 ← await p3; r4 ← await p4;
  mret (r1, r2, r3, r4).

Section View.
(** [process.env.NEXT_PUBLIC_BACKEND_URL], [process.env.NEXT_PUBLIC_APP_URL],
    the [id] prop and [session?.user?.id] ([None] when undefined). *)
Variable backend : string.
Variable app_url : string.
Variable id : string.
Variable session_user_id : option string.

Definition school_request : Request :=
  get_request (backend +:+ "/organizations/" +:+ id).
Definition members_request : Request :=
  get_request (backend +:+ "/organizations/" +:+ id +:+ "/members").
Definition cohorts_request : Request :=
  get_request (backend +:+ "/cohorts/?org_id=" +:+ id).
Definition courses_request : Request :=
  get_request (backend +:+ "/courses/?org_id=" +:+ id).

(** The array handed to [Promise.all]. *)
Definition four_requests : list Request :=
  [school_request; members_request; cohorts_request; courses_request].

Definition transformedSchool (schoolData : SchoolData)
    (membersData : option (list TeamMember))
    (cohortsData : list CohortData) (coursesData : list CourseData) : School :=
  {| school_id := sd_id schoolData;
     school_name := sd_name schoolData;
     school_url := app_url +:+ "/school/" +:+ sd_slug schoolData;
     courses := map (λ course, {| course_id := cd_id course;
                                  course_name := cd_name course;
                                  moduleCount := 0;
                                  description := EmptyString |}) coursesData;
     cohorts := map (λ cohort, {| cohort_id := hd_id cohort;
                                  cohort_name := hd_name cohort |}) cohortsData;
     members := default [] membersData |}.

Definition fetchSchool (net : Network) : M State unit :=
  modify (set_loading true);;
  try_finally
    (try_catch
       (p1 ← fetch school_request (school_outcome net);
        p2 ← fetch members_request (members_outcome net);
        p3 ← fetch cohorts_request (cohorts_outcome net);
        p4 ← fetch courses_request (courses_outcome net);
        '(schoolResponse, membersResponse, cohortsResponse, coursesResponse) ←
          promise_all4 p1 p2 p3 p4;
        if negb (ok schoolResponse) then
          throw ("API error (school): " +:+ pretty (status schoolResponse))
        else if negb (ok membersResponse) then
          throw ("API error (members): " +:+ pretty (status membersResponse))
        else if negb (ok cohortsResponse) then
          throw ("API error (cohorts): " +:+ pretty (status cohortsResponse))
        else if negb (ok coursesResponse) then
          throw ("API error (courses): " +:+ pretty (status coursesResponse))
        else
          schoolData ← json schoolResponse;
          membersData ← json membersResponse;
          cohortsData ← json cohortsResponse;
          coursesData ← json coursesResponse;
          modify (set_school
                    (Some (transformedSchool schoolData membersData
                                             cohortsData coursesData))))
       (λ error, console_error "Error fetching school:"))
    (modify (set_loading false)).

(** [session?.user?.id === member.id.toString()] *)
Definition isCurrentUser (member : TeamMember) : bool :=
  bool_decide (session_user_id = Some (pretty (member_id member))).

Definition handleMemberSelection (member : TeamMember) : M State unit :=
  if isCurrentUser member then mret ()
  else
    modify (λ s,
      let prevSelected := selectedMembers s in
      set_selectedMembers
        (if existsb (λ m, bool_decide (member_id m = member_id member)) prevSelected
         then filter (λ m, member_id m ≠ member_id member) prevSelected
         else prevSelected ++ [member]) s).

Definition handleSelectAllMembers (checked : bool) : M State unit :=
  if checked then
    s ← get;
    let selectableMembers :=
      match school s with
      | Some sc =>
          filter (λ member, role member ≠ "owner" ∧ isCurrentUser member = false)
                 (members sc)
      | None => []
      end in
    modify (set_selectedMembers selectableMembers)
  else
    modify (set_selectedMembers []).

Definition hasSelectableMembers (s : State) : bool :=
  match school s with
  | None => false
  | Some sc =>
      existsb (λ member, bool_decide (role member ≠ "owner")
                         && negb (isCurrentUser member)) (members sc)
  end.

(** *** The selection controls of the members table

    The header checkbox is rendered when [hasSelectableMembers()], and its
    change event carries [e.target.checked].  The checkbox of a row is
    rendered when [member.role !== 'owner' && !isCurrentUser(member)]; a row
    without a checkbox offers nothing to click. *)
Inductive Click :=
| ClickSelectAll (checked : bool)
| ClickMember (row : nat).

Definition click (c : Click) : M State unit :=
  s ← get;
  match c with
  | ClickSelectAll checked =>
      if hasSelectableMembers s then handleSelectAllMembers checked else mret ()
  | ClickMember row =>
      match school s with
      | None => mret ()
      | Some sc =>
          match members sc !! row with
          | Some member =>
              if bool_decide (role member ≠ "owner") && negb (isCurrentUser member)
              then handleMemberSelection member
              else mret ()
          | None => mret ()
          end
      end
  end.

(** The members that must stay out of the selection: the owner and the
    signed-in user. *)
Definition owner_or_self (member : TeamMember) : Prop :=
  role member = "owner" ∨ isCurrentUser member = true.

Definition selection_ok (s : State) : Prop :=
  ∀ member, member ∈ selectedMembers s → ¬ owner_or_self member.

Fixpoint clicks (cs : list Click) : M State unit :=
  match cs with
  | [] => mret ()
  | c :: cs' => click c;; clicks cs'
  end.

End View.

(** *** Sample data used to exercise the view *)

Definition sample_owner : TeamMember :=
  {| member_id := 1; email := "owner@school.test"; role := "owner" |}.
Definition sample_self : TeamMember :=
  {| member_id := 2; email := "me@school.test"; role := "admin" |}.
Definition sample_A : TeamMember :=
  {| member_id := 3; email := "a@school.test"; role := "admin" |}.
Definition sample_B : TeamMember :=
  {| member_id := 4; email := "b@school.test"; role := "admin" |}.

Definition sample_school : School :=
  {| school_id := 5; school_name := "Test School";
     school_url := "https://app.test/school/test-school";
     courses := []; cohorts := [];
     members := [sample_owner; sample_self; sample_A; sample_B] |}.

(** The state of the view on mount. *)
Definition initial_state : State :=
  {| school := None; loading := true; selectedMembers := [];
     memberToDelete := None; isDeleteConfirmOpen := false |}.

Definition sample_loaded : State :=
  set_loading false (set_school (Some sample_school) initial_state).

(** Three requests succeed and the courses request answers 500. *)
Definition courses_fail : Network :=
  {| school_outcome :=
       Resolved 200 (Some {| sd_id := 5; sd_name := "Test School";
                             sd_slug := "test-school" |});
     members_outcome := Resolved 200 (Some (Some [sample_owner; sample_self]));
     cohorts_outcome := Resolved 200 (Some []);
     courses_outcome := Resolved 500 None |}.

Definition all_fine : Network :=
  {| school_outcome :=
       Resolved 200 (Some {| sd_id := 5; sd_name := "Test School";
                             sd_slug := "test-school" |});
     members_outcome := Resolved 200 (Some (Some [sample_owner; sample_self]));
     cohorts_outcome := Resolved 200 (Some [{| hd_id := 9; hd_name := "Batch 1" |}]);
     courses_outcome := Resolved 201 (Some [{| cd_id := 6; cd_name := "Intro" |}]) |}.

End SchoolAdmin.

(** ** The post page: loading, commenting, rendering *)
Module PostPageMore.
Import PostPage.

Definition set_loading (b : bool) (s : State) : State :=
  {| post := post s; loading := b; error := error s;
     newComment := newComment s; isSubmitting := isSubmitting s;
     itemToDelete := itemToDelete s |}.

Definition set_error (e : option string) (s : State) : State :=
  {| post := post s; loading := loading s; error := e;
     newComment := newComment s; isSubmitting := isSubmitting s;
     itemToDelete := itemToDelete s |}.

Definition set_newComment (t : string) (s : State) : State :=
  {| post := post s; loading := loading s; error := error s;
     newComment := t; isSubmitting := isSubmitting s;
     itemToDelete := itemToDelete s |}.

Definition set_isSubmitting (b : bool) (s : State) : State :=
  {| post := post s; loading := loading s; error := error s;
     newComment := newComment s; isSubmitting := b;
     itemToDelete := itemToDelete s |}.

(** [getVoteButtonClass] *)
Definition getVoteButtonClass (userVote : option Vote) (type : Vote) : string :=
  if decide (userVote = Some type) then
    if decide (type = up) then "text-green-500" else "text-red-500"
  else "text-gray-400".

(** What the user's own recorded vote contributes to the net score: the
    comment in [updateItem] counts an up-vote as +1 and a down-vote as -1. *)
Definition own_share (uv : option Vote) : Z :=
  match uv with
  | Some up => 1
  | Some down => -1
  | None => 0
  end.

(** The part of an item's score that is not the user's own vote. *)
Definition others_share {T} `{Votable T} (item : T) : Z :=
  votes item - own_share (user_vote item).

Definition opposite (r : Vote) : Vote :=
  match r with up => down | down => up end.

(** The item after two clicks on the same button, as [updateItem] applied
    twice computes it: an item that carried the opposite vote ends with no
    vote, any other item is back where it started. *)
Definition clicked_twice {T} `{Votable T} (r : Vote) (item : T) : T :=
  if decide (user_vote item = Some (opposite r))
  then spread_vote item (others_share item) None
  else item.

(** The object spread of [Votable] writes [votes] and [user_vote] and keeps
    [id]; writing back what is there changes nothing. *)
Class LawfulVotable (T : Type) `{Votable T} := {
  votes_spread : ∀ (x : T) v u, votes (spread_vote x v u) = v;
  user_vote_spread : ∀ (x : T) v u, user_vote (spread_vote x v u) = u;
  id_spread : ∀ (x : T) v u, id (spread_vote x v u) = id x;
  spread_spread : ∀ (x : T) v u v' u',
    spread_vote (spread_vote x v u) v' u' = spread_vote x v' u';
  spread_same : ∀ (x : T), spread_vote x (votes x) (user_vote x) = x
}.

#[global] Instance Comment_LawfulVotable : LawfulVotable Comment.
Proof. split; try reflexivity. by intros []. Defined.

#[global] Instance Post_LawfulVotable : LawfulVotable Post.
Proof. split; try reflexivity. by intros []. Defined.

(** The body a caller gets from [await fetch], [response.ok] and
    [await response.json()] in a row: present only for a resolved promise
    with a success status and a decodable body. *)
Definition delivered {B} (o : FetchOutcome B) : option B :=
  match o with
  | Resolved st (Some b) => if (200 <=? st) && (st <=? 299) then Some b else None
  | _ => None
  end.

(** The alerts of a trace, in order. *)
Definition alerts {S} (t : list (Event S)) : list string :=
  omap (λ e, match e with EvAlert m => Some m | _ => None end) t.

Section Handlers.
(** [process.env.NEXT_PUBLIC_BACKEND_URL], the user of [useAuth()], the
    [postId] route parameter (empty when absent), the answers of the
    environment to the creation request and to the request for the post,
    and two built-ins of the language: [String.prototype.trim], and
    [parseInt] ([None] for [NaN], which [JSON.stringify] writes as null). *)
Variable backend : string.
Variable user : option User.
Variable postId : string.
Variable net : Request → FetchOutcome Json.
Variable net_post : Request → FetchOutcome Post.
Variable trim : string → string.
Variable parseInt : string → option Z.

Definition post_request : Request :=
  get_request
    (match user with
     | Some u => backend +:+ "/hubs/posts/" +:+ postId +:+ "?userId=" +:+ user_id u
     | None => backend +:+ "/hubs/posts/" +:+ postId
     end).

Definition fetchPost : M State unit :=
  if decide (postId = EmptyString) then mret ()
  else
    try_finally
      (try_catch
         (modify (set_loading true);;
          response ← fetch post_request (net_post post_request) ≫= await;
          if negb (ok response) then throw "Failed to fetch post."
          else
            data ← json response;
            modify (set_post (Some data)))
         (λ err,
           modify (set_error
             (Some "Could not load the post. It may have been deleted or the link is incorrect."))))
      (modify (set_loading false)).

Definition comment_request (u : User) (p : Post) (text : string) : Request :=
  {| url := backend +:+ "/hubs/posts";
     method := POST;
     headers := [("Content-Type", "application/json")];
     body := Some (JObj [("hub_id", JNum (hub_id p));
                         ("user_id", match parseInt (user_id u) with
                                     | Some n => JNum n
                                     | None => JNull
                                     end);
                         ("content", JStr text);
                         ("post_type", JStr "reply");
                         ("parent_id", JNum (id p))]) |}.

Definition handleAddComment : M State unit :=
  s ← get;
  match user, post s with
  | Some u, Some p =>
      if decide (trim (newComment s) = EmptyString) then mret ()
      else
        modify (set_isSubmitting true);;
        try_finally
          (try_catch
             (let req := comment_request u p (newComment s) in
              response ← fetch req (net req) ≫= await;
              if negb (ok response) then throw "Failed to add comment."
              else
                (* re-fetch the post to get the new comment list *)
                fetchPost;;
                modify (set_newComment EmptyString))
             (λ err,
               console_error "handleAddComment error:";;
               alert "Failed to post your comment. Please try again."))
          (modify (set_isSubmitting false))
  | _, _ => mret ()
  end.

End Handlers.

(** A [trim] for text without exotic white space, and a [parseInt] for
    plain decimal ids, used to run the handlers on sample data. *)
Definition sample_trim (t : string) : string :=
  if forallb (λ a, Ascii.eqb a (Ascii.ascii_of_nat 32)) (String.list_ascii_of_string t)
  then EmptyString else t.

Definition sample_parseInt (t : string) : option Z :=
  if bool_decide (t = "17") then Some 17 else None.

Definition refetched_post : Post :=
  sample_post 10 (Some down)
    [sample_comment 7 3 (Some up); sample_comment 8 0 None;
     sample_comment 9 0 None].

Definition post_server_ok : Request → FetchOutcome Post :=
  λ _, Resolved 200 (Some refetched_post).
Definition post_server_gone : Request → FetchOutcome Post :=
  λ _, Resolved 404 None.

Definition typing (t : string) : State :=
  set_newComment t loaded.

(** Comment 8, and the post itself, picked for deletion. *)
Definition picked_comment : State :=
  sample_state (Some loaded_post) (Some {| item_id := 8; isComment := true |}).
Definition picked_post : State :=
  sample_state (Some loaded_post) (Some {| item_id := 40; isComment := false |}).

End PostPageMore.

(** ** The school admin view: removal, invitations, hubs, tabs *)
Module AdminView.
Import SchoolAdmin.

Definition set_memberToDelete (m : option TeamMember) (s : State) : State :=
  {| school := school s; loading := loading s;
     selectedMembers := selectedMembers s; memberToDelete := m;
     isDeleteConfirmOpen := isDeleteConfirmOpen s |}.

Definition set_isDeleteConfirmOpen (b : bool) (s : State) : State :=
  {| school := school s; loading := loading s;
     selectedMembers := selectedMembers s; memberToDelete := memberToDelete s;
     isDeleteConfirmOpen := b |}.

(** [{ ...prev, members: membersData }] *)
Definition with_members (sc : School) (l : list TeamMember) : School :=
  {| school_id := school_id sc; school_name := school_name sc;
     school_url := school_url sc; courses := courses sc;
     cohorts := cohorts sc; members := l |}.

(** [interface Hub] of [@/lib/api]. *)
Record Hub := { hub_id : Z; hub_name : string; hub_description : string }.

Record ToastMessage := {
  toast_title : string; toast_description : string; toast_emoji : string
}.

(** [type TabType = 'courses' | 'cohorts' | 'members' | 'hubs'] *)
Inductive TabType := tab_courses | tab_cohorts | tab_members | tab_hubs.

#[global] Instance TabType_eq_dec : EqDecision TabType.
Proof. solve_decision. Defined.


(** The whole view: the cells of [SchoolAdmin.State], the remaining
    [useState] cells the handlers below write, the [hubs] cell of the
    [useHubs] hook, and the fragment of the page URL as
    [window.location.hash] reads it (empty, or starting with [#]). *)
Record View := {
  core : State;
  isInviteDialogOpen : bool;
  showToast : bool;
  toastMessage : ToastMessage;
  hubs : list Hub;
  hubToDelete : option Z;
  activeTab : TabType;
  location_hash : string
}.

Definition set_core (c : State) (v : View) : View :=
  {| core := c; isInviteDialogOpen := isInviteDialogOpen v;
     showToast := showToast v; toastMessage := toastMessage v;
     hubs := hubs v; hubToDelete := hubToDelete v;
     activeTab := activeTab v; location_hash := location_hash v |}.

Definition set_isInviteDialogOpen (b : bool) (v : View) : View :=
  {| core := core v; isInviteDialogOpen := b;
     showToast := showToast v; toastMessage := toastMessage v;
     hubs := hubs v; hubToDelete := hubToDelete v;
     activeTab := activeTab v; location_hash := location_hash v |}.

Definition set_showToast (b : bool) (v : View) : View :=
  {| core := core v; isInviteDialogOpen := isInviteDialogOpen v;
     showToast := b; toastMessage := toastMessage v;
     hubs := hubs v; hubToDelete := hubToDelete v;
     activeTab := activeTab v; location_hash := location_hash v |}.

Definition set_toastMessage (t : ToastMessage) (v : View) : View :=
  {| core := core v; isInviteDialogOpen := isInviteDialogOpen v;
     showToast := showToast v; toastMessage := t;
     hubs := hubs v; hubToDelete := hubToDelete v;
     activeTab := activeTab v; location_hash := location_hash v |}.

Definition set_hubs (l : list Hub) (v : View) : View :=
  {| core := core v; isInviteDialogOpen := isInviteDialogOpen v;
     showToast := showToast v; toastMessage := toastMessage v;
     hubs := l; hubToDelete := hubToDelete v;
     activeTab := activeTab v; location_hash := location_hash v |}.

Definition set_hubToDelete (h : option Z) (v : View) : View :=
  {| core := core v; isInviteDialogOpen := isInviteDialogOpen v;
     showToast := showToast v; toastMessage := toastMessage v;
     hubs := hubs v; hubToDelete := h;
     activeTab := activeTab v; location_hash := location_hash v |}.



(** A state setter of one of the cells of [SchoolAdmin.State], seen from
    the whole view. *)
Definition on_core (f : State → State) (v : View) : View :=
  set_core (f (core v)) v.

(** [setSchool(prev => prev ? { ...prev, members: membersData } : null)] *)
Definition set_members (l : list TeamMember) (s : State) : State :=
  set_school (match school s with
              | Some sc => Some (with_members sc l)
              | None => None
              end) s.

(** A handler that only touches the cells of [SchoolAdmin.State], run
    inside the whole view: its commits are commits of the view with the
    other cells as they are. *)
Definition lift_event (v : View) (e : Event State) : Event View :=
  match e with
  | EvSet c => EvSet (set_core c v)
  | EvFetch r => EvFetch r
  | EvAlert m => EvAlert m
  | EvConsoleError m => EvConsoleError m
  | EvRouterBack => EvRouterBack
  end.

Definition zoom {A} (m : M State A) : M View A :=
  λ w, let '(r, w') := m {| state := core (state w); log := [] |} in
       (r, {| state := set_core (state w') (state w);
              log := log w ++ (lift_event (state w) <$> log w') |}).

(** The colours of [getBorderColor]. *)
Definition colors : list string :=
  ["border-purple-500"; "border-green-500"; "border-pink-500";
   "border-yellow-500"; "border-blue-500"; "border-red-500";
   "border-indigo-500"; "border-orange-500"].

(** [getBorderColor] of [HubCard]: [colors[hub.id % colors.length]].  The
    remainder has the sign of the id, and a negative index reads
    [undefined] ([None]). *)
Definition getBorderColor (hub : Hub) : option string :=
  let i := Z.rem (hub_id hub) (Z.of_nat (length colors)) in
  if i <? 0 then None else colors !! Z.to_nat i.


(** The text between the quotes of a template literal that itself contains
    a double quote. *)
Definition dquote : string := String (Ascii.ascii_of_nat 34) EmptyString.

Section View.
(** [process.env.NEXT_PUBLIC_BACKEND_URL], the [id] prop,
    [session?.user?.id], the message of the error a rejected [fetch]
    raises, and the answers of the environment: to requests whose body is
    not read, to the request for the member list, and to the hub deletion,
    whose error body may carry a [detail] ([None] when the body cannot be
    decoded, [Some None] when it has no detail). *)
Variable backend : string.
Variable id : string.
Variable session_user_id : option string.
Variable fetch_error : string.
Variable net : Request → FetchOutcome Json.
Variable net_members : Request → FetchOutcome (list TeamMember).
Variable net_hub : Request → FetchOutcome (option string).

(** [await fetch(...)] in this view: a rejected promise throws the
    browser's error. *)
Definition await_fetch {S B} (req : Request) (o : FetchOutcome B) : M S (Response B) :=
  p ← fetch req o;
  match p with
  | Rejected => throw fetch_error
  | Resolved st pl => mret {| status := st; payload := pl |}
  end.

Definition areAllMembersSelected (s : State) : bool :=
  match school s with
  | None => false
  | Some sc =>
      let selectableMembers :=
        filter (λ member, role member ≠ "owner"
                          ∧ isCurrentUser session_user_id member = false)
               (members sc) in
      bool_decide (0 < length selectableMembers)%nat
      && bool_decide (length (selectedMembers s) = length selectableMembers)
  end.

Definition handleDeleteMember (member : TeamMember) : M State unit :=
  if isCurrentUser session_user_id member then mret ()
  else
    modify (set_memberToDelete (Some member));;
    modify (set_selectedMembers []);;
    modify (set_isDeleteConfirmOpen true).

Definition handleDeleteSelectedMembers : M State unit :=
  modify (set_memberToDelete None);;
  modify (set_isDeleteConfirmOpen true).

Definition invite_request (emails : list string) : Request :=
  {| url := backend +:+ "/organizations/" +:+ id +:+ "/members";
     method := POST;
     headers := [("Content-Type", "application/json")];
     body := Some (JObj [("emails", JArr (JStr <$> emails))]) |}.

Definition remove_request (membersToDelete : list TeamMember) : Request :=
  {| url := backend +:+ "/organizations/" +:+ id +:+ "/members";
     method := DELETE;
     headers := [("Content-Type", "application/json")];
     body := Some (JObj [("user_ids",
                          JArr ((λ member, JNum (member_id member))
                                  <$> membersToDelete))]) |}.

Definition invited_toast (emails : list string) : ToastMessage :=
  {| toast_title := "Growing the tribe";
     toast_description :=
       pretty (length emails) +:+ " " +:+
       (if decide (length emails = 1%nat) then "member" else "members") +:+
       " has been invited to your team";
     toast_emoji := "ðŸŽ‰" |}.

Definition handleInviteMembers (emails : list string) : M View unit :=
  try_catch
    (let req := invite_request emails in
     response ← await_fetch req (net req);
     if negb (ok response) then throw "Failed to invite members"
     else
       let mreq := members_request backend id in
       membersResponse ← await_fetch mreq (net_members mreq);
       if negb (ok membersResponse) then throw "Failed to fetch updated members"
       else
         membersData ← json membersResponse;
         modify (on_core (set_members membersData));;
         modify (set_isInviteDialogOpen false);;
         modify (set_toastMessage (invited_toast emails));;
         modify (set_showToast true))
    (λ error, console_error "Error inviting members:").

Definition removed_toast (membersToDelete : list TeamMember) : ToastMessage :=
  {| toast_title := "The tribe has shrunk!";
     toast_description :=
       match membersToDelete with
       | [member] => email member +:+ " has been removed from your team"
       | _ => pretty (length membersToDelete) +:+
              " members have been removed from your team"
       end;
     toast_emoji := "ðŸ˜¢" |}.

Definition confirmDeleteMember : M View unit :=
  v ← get;
  let membersToDelete :=
    match memberToDelete (core v) with
    | Some member => [member]
    | None => selectedMembers (core v)
    end in
  if decide (length membersToDelete = 0%nat) then mret ()
  else
    try_finally
      (try_catch
         (let req := remove_request membersToDelete in
          response ← await_fetch req (net req);
          if negb (ok response) then throw "Failed to delete member(s)"
          else
            let mreq := members_request backend id in
            membersResponse ← await_fetch mreq (net_members mreq);
            if negb (ok membersResponse)
            then throw "Failed to fetch updated members"
            else
              membersData ← json membersResponse;
              modify (on_core (set_members membersData));;
              modify (set_toastMessage (removed_toast membersToDelete));;
              modify (set_showToast true))
         (λ error, console_error "Error deleting member(s):"))
      (modify (on_core (set_isDeleteConfirmOpen false));;
       modify (on_core (set_memberToDelete None));;
       modify (on_core (set_selectedMembers []))).

Definition handleHubCreated (newHub : Hub) : M View unit :=
  modify (λ v, set_hubs (hubs v ++ [newHub]) v);;
  modify (set_toastMessage
            {| toast_title := "Hub Created!";
               toast_description :=
                 "The " +:+ dquote +:+ hub_name newHub +:+ dquote +:+
                 " hub is now live.";
               toast_emoji := "ðŸŽ‰" |});;
  modify (set_showToast true).

(** [onDelete={() => setHubToDelete(hub.id)}] *)
Definition pickHubToDelete (hub : Hub) : M View unit :=
  modify (set_hubToDelete (Some (hub_id hub))).

Definition hub_delete_request (h : Z) : Request :=
  {| url := backend +:+ "/hubs/" +:+ pretty h +:+ "/";
     method := DELETE; headers := []; body := None |}.

(** [errorData.detail || `Failed to delete hub (status: ${response.status})`] *)
Definition hub_error_message (r : Response (option string)) : string :=
  match payload r with
  | Some (Some detail) =>
      if decide (detail = EmptyString)
      then "Failed to delete hub (status: " +:+ pretty (status r) +:+ ")"
      else detail
  | _ => "Failed to delete hub (status: " +:+ pretty (status r) +:+ ")"
  end.

Definition handleHubDelete : M View unit :=
  v ← get;
  match hubToDelete v with
  | None => mret ()
  | Some h =>
      if decide (h = 0) then mret ()       (* [!hubToDelete] holds for 0 *)
      else
        try_finally
          (try_catch
             (let req := hub_delete_request h in
              response ← await_fetch req (net_hub req);
              if negb (ok response) then throw (hub_error_message response)
              else
                modify (λ v, set_hubs (filter (λ x, hub_id x ≠ h) (hubs v)) v);;
                modify (set_toastMessage
                          {| toast_title := "Hub Deleted";
                             toast_description :=
                               "The hub has been successfully deleted.";
                             toast_emoji := "ðŸ—‘ï¸" |});;
                modify (set_showToast true))
             (λ error,
               console_error "Error deleting hub:";;
               modify (set_toastMessage
                         {| toast_title := "Error Deleting Hub";
                            toast_description := error;
                            toast_emoji := "âŒ" |});;
               modify (set_showToast true)))
          (modify (set_hubToDelete None))
  end.



End View.

(** The member list a mutation followed by a re-fetch obtains: present
    only when the mutation succeeded and the re-fetch delivered a list. *)
Definition refreshed_members (o : FetchOutcome Json)
    (o_members : FetchOutcome (list TeamMember)) : option (list TeamMember) :=
  if succeeded o then PostPageMore.delivered o_members else None.

(** The [finally] block of [confirmDeleteMember], as a function on the
    view. *)
Definition closed_dialog (v : View) : View :=
  on_core (set_selectedMembers [])
    (on_core (set_memberToDelete None)
       (on_core (set_isDeleteConfirmOpen false) v)).

(** The members a confirmation would remove. *)
Definition membersToDelete (v : View) : list TeamMember :=
  match memberToDelete (core v) with
  | Some member => [member]
  | None => selectedMembers (core v)
  end.

(** *** Sample data used to exercise the view *)

Definition no_toast : ToastMessage :=
  {| toast_title := EmptyString; toast_description := EmptyString;
     toast_emoji := EmptyString |}.

Definition hub_general : Hub :=
  {| hub_id := 10; hub_name := "General"; hub_description := "Anything" |}.
Definition hub_help : Hub :=
  {| hub_id := 11; hub_name := "Help"; hub_description := "Questions" |}.

(** The view once the school and two hubs are loaded. *)
Definition sample_view : View :=
  {| core := sample_loaded; isInviteDialogOpen := false;
     showToast := false; toastMessage := no_toast;
     hubs := [hub_general; hub_help]; hubToDelete := None;
     activeTab := tab_courses; location_hash := EmptyString |}.

(** Member A ticked; hub 11 picked for deletion; a hub not yet listed. *)
Definition ticked_view : View :=
  on_core (set_selectedMembers [sample_A]) sample_view.
Definition picked_hub_view : View := set_hubToDelete (Some 11) sample_view.
Definition hub_new : Hub :=
  {| hub_id := 12; hub_name := "Events"; hub_description := "Meetups" |}.

Definition admin_ok : Request → FetchOutcome Json := λ _, Resolved 200 None.
Definition admin_fail : Request → FetchOutcome Json := λ _, Resolved 403 None.
Definition members_ok : Request → FetchOutcome (list TeamMember) :=
  λ _, Resolved 200 (Some [sample_owner; sample_self; sample_B]).
Definition hub_ok : Request → FetchOutcome (option string) :=
  λ _, Resolved 204 None.
Definition hub_refused : Request → FetchOutcome (option string) :=
  λ _, Resolved 409 (Some (Some "Hub still has posts")).

End AdminView.

(** ** The hub creation dialog *)
Module HubDialog.
Import SchoolAdmin AdminView.

(** The [useState] cells of [CreateHubDialog], together with what its
    props reach in the admin view that renders it: [open] is the view's
    [isCreateHubDialogOpen] cell, [onClose] lowers it, and [onHubCreated]
    is the view's [handleHubCreated]. *)
Record Dialog := {
  name : string;
  description : string;
  error : string;
  isLoading : bool;
  open : bool;
  parent : View
}.

Definition set_name (x : string) (d : Dialog) : Dialog :=
  {| name := x; description := description d; error := error d;
     isLoading := isLoading d; open := open d; parent := parent d |}.
Definition set_description (x : string) (d : Dialog) : Dialog :=
  {| name := name d; description := x; error := error d;
     isLoading := isLoading d; open := open d; parent := parent d |}.
Definition set_error (x : string) (d : Dialog) : Dialog :=
  {| name := name d; description := description d; error := x;
     isLoading := isLoading d; open := open d; parent := parent d |}.
Definition set_isLoading (x : bool) (d : Dialog) : Dialog :=
  {| name := name d; description := description d; error := error d;
     isLoading := x; open := open d; parent := parent d |}.
Definition set_open (x : bool) (d : Dialog) : Dialog :=
  {| name := name d; description := description d; error := error d;
     isLoading := isLoading d; open := x; parent := parent d |}.
Definition set_parent (x : View) (d : Dialog) : Dialog :=
  {| name := name d; description := description d; error := error d;
     isLoading := isLoading d; open := open d; parent := x |}.

(** A callback of the admin view called from the dialog: it runs on the
    view, and its commits are commits of the whole with the dialog's own
    cells as they are. *)
Definition lift_view_event (d : Dialog) (e : Event View) : Event Dialog :=
  match e with
  | EvSet v => EvSet (set_parent v d)
  | EvFetch r => EvFetch r
  | EvAlert m => EvAlert m
  | EvConsoleError m => EvConsoleError m
  | EvRouterBack => EvRouterBack
  end.

Definition in_parent {A} (m : M View A) : M Dialog A :=
  λ w, let '(r, w') := m {| state := parent (state w); log := [] |} in
       (r, {| state := set_parent (state w') (state w);
              log := log w ++ (lift_view_event (state w) <$> log w') |}).

Section Dialog.
(** [process.env.NEXT_PUBLIC_BACKEND_URL], the [schoolId] prop, the
    messages of the errors a rejected [fetch] and an undecodable body
    raise, the answer of the environment to the creation request, and the
    built-ins [String.prototype.trim] and [parseInt] ([None] for [NaN]). *)
Variable backend : string.
Variable schoolId : string.
Variable fetch_error : string.
Variable json_error : string.
Variable net_create : Request → FetchOutcome Hub.
Variable trim : string → string.
Variable parseInt : string → option Z.

Definition create_request (d : Dialog) : Request :=
  {| url := backend +:+ "/hubs/";
     method := POST;
     headers := [("Content-Type", "application/json")];
     body := Some (JObj [("org_id", match parseInt schoolId with
                                    | Some n => JNum n
                                    | None => JNull
                                    end);
                         ("name", JStr (name d));
                         ("description", JStr (description d))]) |}.

(** The effect on [open]: when the dialog opens its cells are reset. *)
Definition openDialog : M Dialog unit :=
  modify (set_open true);;
  modify (set_name EmptyString);;
  modify (set_description EmptyString);;
  modify (set_error EmptyString);;
  modify (set_isLoading false).

Definition handleSubmit : M Dialog unit :=
  d ← get;
  if decide (trim (name d) = EmptyString) then
    modify (set_error "Hub name is required.")
  else
    modify (set_isLoading true);;
    modify (set_error EmptyString);;
    try_finally
      (try_catch
         (let req := create_request d in
          response ← await_fetch fetch_error req (net_create req);
          if negb (ok response)
          then throw "Failed to create hub. Please try again."
          else
            newHub ← match payload response with
                     | Some hub => mret hub
                     | None => throw json_error
                     end;
            in_parent (handleHubCreated newHub);;   (* onHubCreated(newHub) *)
            modify (set_open false))                (* onClose() *)
         (λ err, modify (set_error err)))
      (modify (set_isLoading false)).

End Dialog.

(** *** Sample data used to exercise the dialog *)

Definition sample_dialog (n : string) : Dialog :=
  {| name := n; description := "Meetups"; error := EmptyString;
     isLoading := false; open := true; parent := sample_view |}.

Definition create_ok : Request → FetchOutcome Hub :=
  λ _, Resolved 201 (Some hub_new).
Definition create_refused : Request → FetchOutcome Hub :=
  λ _, Resolved 422 None.

End HubDialog.

(** ** Properties of the post page *)
Module PostPageSpec.
Import PostPage.

Section Vote.
Variable backend : string.
Variable net : Request → FetchOutcome Json.

(** *** [updateItem] and the policy table *)

Lemma updateItem_item {T} `{Votable T} (r : Vote) (item : T) (vars : VoteVars) :
  (updateItem r item vars).1 = spec_voted r item.
Proof.
  unfold updateItem, spec_voted, spec_votes, spec_user_vote; simpl.
  destruct (user_vote item) as [[]|], r; simpl; reflexivity.
Qed.

Lemma updateItem_vars {T} `{Votable T} (r : Vote) (item : T) (vars : VoteVars) :
  (updateItem r item vars).2 =
  {| originalVote := user_vote item;
     voteChange := spec_votes (user_vote item) r (votes item) - votes item |}.
Proof.
  unfold updateItem, spec_votes, set_voteChange, set_originalVote; simpl.
  destruct (user_vote item) as [[]|], r; simpl; f_equal; lia.
Qed.

Lemma map_vars_items (itemId : Z) (r : Vote) (cs : list Comment) (vars : VoteVars) :
  (map_vars (update_matching itemId r) cs vars).1 =
  map (λ c, if decide (id c = itemId) then spec_voted r c else c) cs.
Proof.
  revert vars; induction cs as [|c cs IH]; intros vars; [reflexivity|].
  cbn [map_vars map]. unfold update_matching at 1.
  destruct (decide (id c = itemId)) as [Hc|Hc].
  - pose proof (updateItem_item r c vars) as Hi.
    destruct (updateItem r c vars) as [c' v1]; cbn [fst] in Hi; subst c'.
    specialize (IH v1).
    destruct (map_vars (update_matching itemId r) cs v1) as [cs' v2]; cbn [fst] in *.
    by rewrite IH.
  - specialize (IH vars).
    destruct (map_vars (update_matching itemId r) cs vars) as [cs' v2]; cbn [fst] in *.
    by rewrite IH.
Qed.

Lemma map_vars_no_match (itemId : Z) (r : Vote) (cs : list Comment) (vars : VoteVars) :
  (∀ c, c ∈ cs → id c ≠ itemId) →
  map_vars (update_matching itemId r) cs vars = (cs, vars).
Proof.
  induction cs as [|c cs IH]; intros Hno; [reflexivity|].
  cbn [map_vars]. unfold update_matching at 1.
  destruct (decide (id c = itemId)) as [Hc|Hc].
  - exfalso. apply (Hno c); [left | exact Hc].
  - rewrite IH; [reflexivity|]. intros d Hd. apply Hno. by right.
Qed.

Lemma identifies_split (itemId : Z) (cs : list Comment) (i : nat) (c : Comment) :
  identifies itemId cs i c →
  ∃ l1 l2, cs = l1 ++ c :: l2 ∧ length l1 = i ∧
           (∀ d, d ∈ l1 → id d ≠ itemId) ∧ (∀ d, d ∈ l2 → id d ≠ itemId).
Proof.
  intros (Hi & Hc & Huniq).
  exists (take i cs), (drop (S i) cs).
  pose proof (lookup_lt_Some _ _ _ Hi) as Hlt.
  repeat split.
  - by rewrite take_drop_middle.
  - rewrite length_take. lia.
  - intros d Hd Hid. apply list_elem_of_lookup in Hd as [j Hj].
    pose proof (lookup_lt_Some _ _ _ Hj) as Hjlt. rewrite length_take in Hjlt.
    rewrite lookup_take_lt in Hj by lia.
    specialize (Huniq j d Hj Hid). lia.
  - intros d Hd Hid. apply list_elem_of_lookup in Hd as [j Hj].
    rewrite lookup_drop in Hj.
    specialize (Huniq _ d Hj Hid). lia.
Qed.

Lemma map_vars_app (itemId : Z) (r : Vote) (l1 l2 : list Comment) (vars : VoteVars) :
  map_vars (update_matching itemId r) (l1 ++ l2) vars =
  let '(a, v1) := map_vars (update_matching itemId r) l1 vars in
  let '(b, v2) := map_vars (update_matching itemId r) l2 v1 in
  (a ++ b, v2).
Proof.
  revert vars; induction l1 as [|c l1 IH]; intros vars; cbn [map_vars app].
  - by destruct (map_vars (update_matching itemId r) l2 vars).
  - destruct (update_matching itemId r c vars) as [c' v1].
    rewrite IH.
    destruct (map_vars (update_matching itemId r) l1 v1) as [a v2].
    by destruct (map_vars (update_matching itemId r) l2 v2).
Qed.

Lemma map_vars_identified (itemId : Z) (r : Vote) (cs : list Comment)
    (i : nat) (c : Comment) (vars : VoteVars) :
  identifies itemId cs i c →
  map_vars (update_matching itemId r) cs vars =
  (<[i := spec_voted r c]> cs,
   {| originalVote := user_vote c;
      voteChange := spec_votes (user_vote c) r (votes c) - votes c |}).
Proof.
  intros Hid. pose proof Hid as (Hi & Hc & _).
  destruct (identifies_split _ _ _ _ Hid) as (l1 & l2 & -> & Hlen & H1 & H2).
  rewrite map_vars_app, (map_vars_no_match _ _ l1) by done.
  cbn [map_vars]. unfold update_matching at 1. rewrite decide_True by done.
  pose proof (updateItem_item r c vars) as Hitem.
  pose proof (updateItem_vars r c vars) as Hvars.
  destruct (updateItem r c vars) as [c' v1]; cbn [fst snd] in Hitem, Hvars; subst c' v1.
  rewrite (map_vars_no_match _ _ l2) by done.
  subst i. rewrite insert_app_r_alt by lia.
  by replace (length l1 - length l1)%nat with 0%nat by lia.
Qed.

(** *** The rollback undoes the policy *)

Lemma revert_voted_post (r : Vote) (p : Post) :
  revertItem (vars_after r p) (spec_voted r p) = p.
Proof.
  destruct p; unfold revertItem, spec_voted, vars_after; cbn.
  f_equal; lia.
Qed.

Lemma revert_voted_comment (r : Vote) (c : Comment) :
  revertItem (vars_after r c) (spec_voted r c) = c.
Proof.
  destruct c; unfold revertItem, spec_voted, vars_after; cbn.
  f_equal; lia.
Qed.

Lemma map_revert_no_match (itemId : Z) (vars : VoteVars) (cs : list Comment) :
  (∀ c, c ∈ cs → id c ≠ itemId) →
  map (revert_matching itemId vars) cs = cs.
Proof.
  induction cs as [|c cs IH]; intros Hno; [reflexivity|].
  cbn [map]. unfold revert_matching at 1.
  rewrite decide_False by (apply Hno; left).
  rewrite IH; [reflexivity|]. intros d Hd. apply Hno. by right.
Qed.

Lemma map_revert_identified (itemId : Z) (r : Vote) (cs : list Comment)
    (i : nat) (c : Comment) :
  identifies itemId cs i c →
  map (revert_matching itemId (vars_after r c)) (<[i := spec_voted r c]> cs) = cs.
Proof.
  intros Hid. pose proof Hid as (Hi & Hc & _).
  destruct (identifies_split _ _ _ _ Hid) as (l1 & l2 & -> & Hlen & H1 & H2).
  subst i. rewrite insert_app_r_alt by lia.
  replace (length l1 - length l1)%nat with 0%nat by lia.
  change (<[0%nat:=spec_voted r c]> (c :: l2)) with (spec_voted r c :: l2).
  rewrite map_app. cbn [map].
  rewrite !map_revert_no_match by done.
  unfold revert_matching. rewrite decide_True by (destruct c; exact Hc).
  by rewrite revert_voted_comment.
Qed.

(** *** What one run of [handleVote] does

    With a user present the handler issues one request, carrying the
    requested vote, the optimistic state is committed at the render that
    follows, and then the handler either stops (success) or logs, alerts
    and commits the rolled-back state (failure). *)
Lemma handleVote_run (u : User) (itemId : Z) (isC : bool) (r : Vote) (s : State) :
  let pv := optimistic itemId isC r (post s) initial_vars in
  let s1 := set_post pv.1 s in
  let req := vote_request backend u itemId isC (Some r) in
  let s2 := set_post (rollback itemId isC pv.2 pv.1) s1 in
  run (handleVote backend (Some u) net itemId isC r) s =
  if succeeded (net req)
  then (Value (), {| state := s1; log := [EvFetch req; EvSet s1] |})
  else (Value (),
        {| state := s2;
           log := [EvFetch req; EvSet s1;
                   EvConsoleError "Failed to submit vote:";
                   EvAlert "There was an error submitting your vote. Please try again.";
                   EvSet s2] |}).
Proof.
  cbv zeta.
  unfold run, handleVote, render_queued, setPost, try_catch, modify, get,
    fetch, await, alert, console_error, emit, throw, mbind, mret,
    M_bind, M_ret, bind, ret, succeeded, ok.
  cbn [state log originalVote initial_vars].
  rewrite decide_False by discriminate.
  destruct (optimistic itemId isC r (post s) initial_vars) as [p vars].
  cbn [fst snd state log app].
  destruct (net _) as [|st pl]; cbn [state log app status]; [reflexivity|].
  destruct ((200 <=? st) && (st <=? 299)); reflexivity.
Qed.

Lemma handleVote_commits_head (u : User) (itemId : Z) (isC : bool) (r : Vote)
    (s : State) :
  head (commits (trace (handleVote backend (Some u) net itemId isC r) s)) =
  Some (set_post (optimistic itemId isC r (post s) initial_vars).1 s).
Proof.
  unfold trace. rewrite handleVote_run.
  by destruct (succeeded _).
Qed.

(** Every run with a user present sends the requested vote: the
    variables the request is built from have not been assigned yet. *)
Lemma handleVote_requests (u : User) (itemId : Z) (isC : bool) (r : Vote)
    (s : State) :
  requests (trace (handleVote backend (Some u) net itemId isC r) s) =
  [vote_request backend u itemId isC (Some r)].
Proof.
  unfold trace. rewrite handleVote_run.
  by destruct (succeeded _).
Qed.

Lemma set_post_same (s : State) : set_post (post s) s = s.
Proof. by destruct s. Qed.

Lemma with_comments_same (p : Post) : with_comments p (comments p) = p.
Proof. by destruct p. Qed.

Lemma optimistic_post (itemId : Z) (r : Vote) (p : Post) (vars : VoteVars) :
  optimistic itemId false r (Some p) vars = (Some (spec_voted r p), vars_after r p).
Proof.
  unfold optimistic; cbn [negb].
  pose proof (updateItem_item r p vars) as Hi.
  pose proof (updateItem_vars r p vars) as Hv.
  destruct (updateItem r p vars) as [p' v']; cbn [fst snd] in *.
  by subst.
Qed.

Lemma optimistic_comment_items (itemId : Z) (r : Vote) (p : Post) (vars : VoteVars) :
  (optimistic itemId true r (Some p) vars).1 =
  Some (with_comments p
          (map (λ c, if decide (id c = itemId) then spec_voted r c else c)
               (comments p))).
Proof.
  unfold optimistic; cbn [negb].
  pose proof (map_vars_items itemId r (comments p) vars) as Hi.
  destruct (map_vars _ _ _) as [cs v']; cbn [fst] in *.
  by subst.
Qed.

Lemma optimistic_comment_identified (itemId : Z) (r : Vote) (p : Post)
    (i : nat) (c : Comment) (vars : VoteVars) :
  identifies itemId (comments p) i c →
  optimistic itemId true r (Some p) vars =
  (Some (with_comments p (<[i := spec_voted r c]> (comments p))), vars_after r c).
Proof.
  intros Hid. unfold optimistic; cbn [negb].
  by rewrite (map_vars_identified _ _ _ _ _ _ Hid).
Qed.

Lemma optimistic_no_match (itemId : Z) (r : Vote) (p : Post) (vars : VoteVars) :
  (∀ c, c ∈ comments p → id c ≠ itemId) →
  optimistic itemId true r (Some p) vars = (Some p, vars).
Proof.
  intros Hno. unfold optimistic; cbn [negb].
  rewrite map_vars_no_match by done.
  by rewrite with_comments_same.
Qed.

(** C1 (vote transition policy).  With a user present and a post [P]
    loaded, the first state that [handleVote] commits is the one the
    policy table prescribes.  For a vote on the post, the committed post
    is [spec_voted r P]: its [votes] field follows [spec_votes] (un-vote
    -1/+1, switch +2/-2, new vote +1/-1), its [user_vote] field follows
    [spec_user_vote] (absent after an un-vote, [r] otherwise) and its
    comments are those of [P].  For a vote on a comment, the committed post
    is [P] with a new comment list of the same length, in which every
    comment carrying [itemId] has, in its own row, been replaced by
    [spec_voted r c]: same id, [votes] following [spec_votes], [user_vote]
    following [spec_user_vote]. *)
Theorem handleVote_applies_policy (u : User) (itemId : Z) (r : Vote)
    (s : State) (P : Post) :
  post s = Some P →
  (∃ s1 P',
     head (commits (trace (handleVote backend (Some u) net itemId false r) s)) =
       Some s1
     ∧ s1 = set_post (Some (spec_voted r P)) s
     ∧ post s1 = Some P'
     ∧ post_votes P' = spec_votes (post_user_vote P) r (post_votes P)
     ∧ post_user_vote P' = spec_user_vote (post_user_vote P) r
     ∧ comments P' = comments P)
  ∧ (∃ s1 P',
     head (commits (trace (handleVote backend (Some u) net itemId true r) s)) =
       Some s1
     ∧ s1 = set_post (Some P') s
     ∧ post s1 = Some P'
     ∧ P' = with_comments P (comments P')
     ∧ length (comments P') = length (comments P)
     ∧ ∀ i c, comments P !! i = Some c → comment_id c = itemId →
         ∃ c', comments P' !! i = Some c'
               ∧ c' = spec_voted r c
               ∧ comment_id c' = comment_id c
               ∧ comment_votes c' =
                   spec_votes (comment_user_vote c) r (comment_votes c)
               ∧ comment_user_vote c' =
                   spec_user_vote (comment_user_vote c) r).
Proof.
  intros HP. split.
  - exists (set_post (Some (spec_voted r P)) s), (spec_voted r P).
    rewrite handleVote_commits_head, HP, optimistic_post.
    by repeat split.
  - exists (set_post (optimistic itemId true r (Some P) initial_vars).1 s).
    rewrite handleVote_commits_head, HP, optimistic_comment_items.
    eexists. split; [reflexivity|]. split; [reflexivity|].
    split; [reflexivity|]. split; [reflexivity|].
    cbn [comments with_comments].
    split; [by rewrite length_map|].
    intros i c Hi Hc. exists (spec_voted r c).
    rewrite list_lookup_fmap, Hi. cbn [fmap option_fmap option_map].
    rewrite decide_True by exact Hc.
    by repeat split.
Qed.

(** C2 (rollback exactness).  When the vote request fails (the promise
    rejects, or the response status is outside 200-299), the handler first
    commits the optimistic state and then commits exactly the state it
    started from: apply-then-revert is the identity on [votes], on
    [user_vote] and on everything else.  This holds for a vote on the post,
    and for a vote on the comment that [itemId] identifies. *)
Theorem handleVote_rollback_exact (u : User) (itemId : Z) (r : Vote)
    (s : State) (P : Post) :
  post s = Some P →
  (∀ isC ft, succeeded (net (vote_request backend u itemId isC ft)) = false) →
  (commits (trace (handleVote backend (Some u) net itemId false r) s) =
     [set_post (Some (spec_voted r P)) s; s]
   ∧ final_state (handleVote backend (Some u) net itemId false r) s = s)
  ∧ ∀ i c, identifies itemId (comments P) i c →
      commits (trace (handleVote backend (Some u) net itemId true r) s) =
        [set_post (Some (with_comments P (<[i := spec_voted r c]> (comments P)))) s; s]
      ∧ final_state (handleVote backend (Some u) net itemId true r) s = s.
Proof.
  intros HP Hfail. split.
  - unfold trace, final_state. rewrite handleVote_run, Hfail.
    rewrite HP, optimistic_post. cbn [fst snd state log commits omap rollback negb].
    rewrite revert_voted_post.
    replace (set_post (Some P) (set_post (Some (spec_voted r P)) s)) with s
      by (destruct s; cbn in *; by subst).
    done.
  - intros i c Hid.
    unfold trace, final_state. rewrite handleVote_run, Hfail.
    rewrite HP, (optimistic_comment_identified _ _ _ _ _ _ Hid).
    cbn [fst snd state log commits omap rollback negb].
    replace (comments (with_comments P (<[i:=spec_voted r c]> (comments P))))
      with (<[i:=spec_voted r c]> (comments P)) by reflexivity.
    rewrite (map_revert_identified _ _ _ _ _ Hid).
    replace (with_comments (with_comments P (<[i:=spec_voted r c]> (comments P)))
               (comments P)) with P by (by destruct P).
    replace (set_post (Some P) (set_post _ s)) with s
      by (destruct s; cbn in *; by subst).
    done.
Qed.

(** C3 (comment isolation).  With a user present, a vote on the comment
    in row [i] that [itemId] identifies commits a post whose comment list is
    the old one with row [i] replaced by the voted comment: same length,
    every other row unchanged, and the post's own [votes], [user_vote] and
    remaining fields untouched. *)
Theorem handleVote_comment_isolated (u : User) (itemId : Z) (r : Vote)
    (s : State) (P : Post) (i : nat) (c : Comment) :
  post s = Some P →
  identifies itemId (comments P) i c →
  ∃ P',
    head (commits (trace (handleVote backend (Some u) net itemId true r) s)) =
      Some (set_post (Some P') s)
    ∧ comments P' = <[i := spec_voted r c]> (comments P)
    ∧ length (comments P') = length (comments P)
    ∧ comments P' !! i = Some (spec_voted r c)
    ∧ (∀ j, j ≠ i → comments P' !! j = comments P !! j)
    ∧ votes P' = votes P
    ∧ user_vote P' = user_vote P
    ∧ with_comments P' (comments P) = P.
Proof.
  intros HP Hid. pose proof Hid as (Hi & _ & _).
  exists (with_comments P (<[i := spec_voted r c]> (comments P))).
  rewrite handleVote_commits_head, HP,
    (optimistic_comment_identified _ _ _ _ _ _ Hid).
  cbn [fst]. repeat split.
  - cbn [comments with_comments]. by rewrite length_insert.
  - cbn [comments with_comments]. apply list_lookup_insert_eq.
    by eapply lookup_lt_Some.
  - intros j Hj. cbn [comments with_comments].
    by rewrite list_lookup_insert_ne.
  - by destruct P.
Qed.

(** C4 (unauthenticated guard).  Without a user the handler shows the
    login prompt and does nothing else: the state is the one it started
    from, no state is committed, and no request is issued. *)
Theorem handleVote_unauthenticated (itemId : Z) (isC : bool) (r : Vote)
    (s : State) :
  run (handleVote backend None net itemId isC r) s =
    (Value (), {| state := s; log := [EvAlert "Please log in to vote."] |})
  ∧ final_state (handleVote backend None net itemId isC r) s = s
  ∧ commits (trace (handleVote backend None net itemId isC r) s) = []
  ∧ requests (trace (handleVote backend None net itemId isC r) s) = [].
Proof. by repeat split. Qed.

(** C10 (vote on an unknown comment).  With a user present and a post
    loaded, a comment vote whose [itemId] matches no comment leaves the
    view model as it was, whatever the server answers: every committed
    state, and the final state, is the initial one.  The vote request is
    issued all the same: one POST to [/hubs/posts/itemId/vote] whose JSON
    body carries the user's id, [vote_type] the requested vote, and
    [is_comment] true. *)
Theorem handleVote_unknown_comment (u : User) (itemId : Z) (r : Vote)
    (s : State) (P : Post) :
  post s = Some P →
  (∀ c, c ∈ comments P → id c ≠ itemId) →
  requests (trace (handleVote backend (Some u) net itemId true r) s) =
    [{| url := backend +:+ "/hubs/posts/" +:+ pretty itemId +:+ "/vote";
        method := POST;
        headers := [("Content-Type", "application/json")];
        body := Some (JObj [("user_id", JStr (user_id u));
                            ("vote_type",
                             match r with
                             | up => JStr "up"
                             | down => JStr "down"
                             end);
                            ("is_comment", JBool true)]) |}]
  ∧ final_state (handleVote backend (Some u) net itemId true r) s = s
  ∧ (∀ s', s' ∈ commits (trace (handleVote backend (Some u) net itemId true r) s) →
           s' = s)
  ∧ optimistic itemId true r (Some P) initial_vars = (Some P, initial_vars)
  ∧ rollback itemId true initial_vars (Some P) = Some P.
Proof.
  intros HP Hno.
  assert (Hroll : rollback itemId true initial_vars (Some P) = Some P).
  { unfold rollback; cbn [negb].
    by rewrite map_revert_no_match, with_comments_same. }
  split; [|split; [|split; [|split]]].
  - rewrite handleVote_requests. by destruct r.
  - unfold final_state. rewrite handleVote_run, HP, optimistic_no_match by done.
    cbn [fst snd]. rewrite Hroll, <- HP, !set_post_same.
    by destruct (succeeded _).
  - intros s'. unfold trace.
    rewrite handleVote_run, HP, optimistic_no_match by done.
    cbn [fst snd]. rewrite Hroll, <- HP, !set_post_same.
    destruct (succeeded _); cbn; intros Hin;
      repeat (apply elem_of_cons in Hin as [Hin|Hin]; [done|]);
      by apply elem_of_nil in Hin.
  - by apply optimistic_no_match.
  - exact Hroll.
Qed.

End Vote.

(** *** Deletion *)
Section Delete.
Variable backend : string.
Variable net : Request → FetchOutcome Json.

(** The promise rejects: nothing is removed and the failure is reported. *)
Lemma handleDelete_rejected (s : State) (it : ItemRef) :
  itemToDelete s = Some it →
  net (delete_request backend (item_id it)) = Rejected →
  run (handleDelete backend net) s =
  (Value (),
   {| state := set_itemToDelete None s;
      log := [EvFetch (delete_request backend (item_id it));
              EvConsoleError "Failed to delete item:";
              EvAlert "Failed to delete. Please try again.";
              EvSet (set_itemToDelete None s)] |}).
Proof.
  intros Hit Hnet.
  unfold run, handleDelete, try_finally, try_catch, setPost, modify, get,
    fetch, await, alert, console_error, router_back, emit, throw, mbind, mret,
    M_bind, M_ret, bind, ret.
  cbn [state log]. rewrite Hit, Hnet. reflexivity.
Qed.

(** The promise resolves: the comment is removed by id filter without the
    response being inspected. *)
Lemma handleDelete_resolved (s : State) (it : ItemRef) (st : Z) (pl : option Json) :
  itemToDelete s = Some it →
  isComment it = true →
  net (delete_request backend (item_id it)) = Resolved st pl →
  let s1 := set_post (without_comment (item_id it) (post s)) s in
  run (handleDelete backend net) s =
  (Value (),
   {| state := set_itemToDelete None s1;
      log := [EvFetch (delete_request backend (item_id it));
              EvSet s1;
              EvSet (set_itemToDelete None s1)] |}).
Proof.
  intros Hit Hc Hnet.
  unfold run, handleDelete, try_finally, try_catch, setPost, modify, get,
    fetch, await, alert, console_error, router_back, emit, throw, mbind, mret,
    M_bind, M_ret, bind, ret.
  cbn [state log]. rewrite Hit, Hnet, Hc. reflexivity.
Qed.

End Delete.

(** *** The theorems at concrete inputs *)

Lemma two_comments_identified :
  identifies 7 two_comments 0 (sample_comment 7 3 (Some up)).
Proof.
  split; [reflexivity|]. split; [reflexivity|].
  intros [|[|j]] d Hj Hd; [reflexivity| |discriminate Hj].
  injection Hj as <-. discriminate Hd.
Defined.

Lemma handleVote_applies_policy_witness :
  head (commits (trace (handleVote "https://api.test" (Some sample_user)
                                   server_ok 40 false up) loaded)) =
    Some (sample_state (Some (sample_post 12 (Some up) two_comments)) None)
  ∧ ∃ P' c',
      head (commits (trace (handleVote "https://api.test" (Some sample_user)
                                       server_ok 7 true up) loaded)) =
        Some (sample_state (Some P') None)
      ∧ length (comments P') = 2%nat
      ∧ comments P' !! 0%nat = Some c'
      ∧ c' = {| comment_id := 7; comment_votes := 2; comment_user_vote := None;
                comment_content := "Nice write-up";
                comment_created_at := "2025-08-02";
                comment_author := "dana" |}.
Proof.
  destruct (handleVote_applies_policy "https://api.test" server_ok
              sample_user 40 up loaded loaded_post eq_refl)
    as [(s1 & P1 & H1 & -> & _) _].
  destruct (handleVote_applies_policy "https://api.test" server_ok
              sample_user 7 up loaded loaded_post eq_refl)
    as [_ (s2 & P2 & H2 & -> & _ & _ & Hlen & Hrow)].
  destruct (Hrow 0%nat (sample_comment 7 3 (Some up)) eq_refl eq_refl)
    as (c' & Hc' & -> & _).
  split; [exact H1|].
  exists P2, (spec_voted up (sample_comment 7 3 (Some up))).
  split; [exact H2|]. split; [exact Hlen|]. split; [exact Hc'|reflexivity].
Defined.

Lemma handleVote_rollback_exact_witness :
  final_state (handleVote "https://api.test" (Some sample_user)
                          server_down 40 false down) loaded = loaded
  ∧ final_state (handleVote "https://api.test" (Some sample_user)
                            server_error 7 true up) loaded = loaded.
Proof.
  split.
  - exact (proj2 (proj1 (handleVote_rollback_exact "https://api.test" server_down
                           sample_user 40 down loaded loaded_post eq_refl
                           (λ _ _, eq_refl)))).
  - exact (proj2 (proj2 (handleVote_rollback_exact "https://api.test" server_error
                           sample_user 7 up loaded loaded_post eq_refl
                           (λ _ _, eq_refl))
                    0%nat _ two_comments_identified)).
Defined.

Lemma handleVote_comment_isolated_witness :
  ∃ P',
    head (commits (trace (handleVote "https://api.test" (Some sample_user)
                                     server_ok 7 true up) loaded)) =
      Some (set_post (Some P') loaded)
    ∧ comments P' = [sample_comment 7 2 None; sample_comment 8 0 None]
    ∧ votes P' = 10 ∧ user_vote P' = Some down.
Proof.
  destruct (handleVote_comment_isolated "https://api.test" server_ok
              sample_user 7 up loaded loaded_post 0 _ eq_refl
              two_comments_identified)
    as (P' & Hhead & Hcs & _ & _ & _ & Hv & Hu & _).
  exists P'. exact (conj Hhead (conj Hcs (conj Hv Hu))).
Defined.

Lemma no_comment_9 : ∀ c, c ∈ comments loaded_post → id c ≠ 9.
Proof.
  intros c Hc.
  apply elem_of_cons in Hc as [->|Hc]; [discriminate|].
  apply elem_of_cons in Hc as [->|Hc]; [discriminate|].
  by apply elem_of_nil in Hc.
Defined.

Lemma handleVote_unknown_comment_witness :
  requests (trace (handleVote "https://api.test" (Some sample_user)
                              server_error 9 true down) loaded) =
    [{| url := "https://api.test/hubs/posts/9/vote"; method := POST;
        headers := [("Content-Type", "application/json")];
        body := Some (JObj [("user_id", JStr "17"); ("vote_type", JStr "down");
                            ("is_comment", JBool true)]) |}]
  ∧ final_state (handleVote "https://api.test" (Some sample_user)
                            server_error 9 true down) loaded = loaded
  ∧ Forall (λ s', s' = loaded)
           (commits (trace (handleVote "https://api.test" (Some sample_user)
                                       server_error 9 true down) loaded)).
Proof.
  destruct (handleVote_unknown_comment "https://api.test" server_error
              sample_user 9 down loaded loaded_post eq_refl no_comment_9)
    as (Hreq & Hfin & Hall & _).
  split; [exact Hreq|]. split; [exact Hfin|].
  apply Forall_forall. exact Hall.
Defined.

(** When two comments carry the same id, [itemId] identifies neither:
    the optimistic update votes on both, and the rollback undoes both with
    the values recorded for the last one. *)
Remark repeated_id_shares_rollback :
  let cs := [sample_comment 7 3 (Some up); sample_comment 7 0 None] in
  let s := sample_state (Some (sample_post 10 None cs)) None in
  commits (trace (handleVote "https://api.test" (Some sample_user)
                             server_error 7 true up) s) =
  [sample_state (Some (sample_post 10 None
                         [sample_comment 7 2 None; sample_comment 7 1 (Some up)]))
                None;
   sample_state (Some (sample_post 10 None
                         [sample_comment 7 1 None; sample_comment 7 0 None]))
                None].
Proof. vm_compute. reflexivity. Qed.

(** C5 (vote request), evaluated where the code departs from it.  The
    user has up-voted comment 7 and clicks its up arrow again, and has
    down-voted the post and clicks its down arrow again: both clicks are
    un-votes, and the state the handler commits records them as such.
    Each run issues exactly one request, a POST to the item's vote URL
    whose body carries [user_id], [vote_type] and [is_comment]; but
    [vote_type] is the requested vote, not null.  The handler computes it
    before the queued state updater has assigned [originalVote], so the
    comparison [originalVote === newVote] is made against null. *)
Theorem handleVote_unvote_sends_requested_vote :
  let on_comment :=
    handleVote "https://api.test" (Some sample_user) server_ok 7 true up in
  let on_post :=
    handleVote "https://api.test" (Some sample_user) server_ok 40 false down in
  (comment_user_vote <$> comments loaded_post !! 0%nat = Some (Some up)
   ∧ head (commits (trace on_comment loaded)) =
       Some (sample_state
               (Some (sample_post 10 (Some down)
                        [sample_comment 7 2 None; sample_comment 8 0 None]))
               None)
   ∧ requests (trace on_comment loaded) =
       [{| url := "https://api.test/hubs/posts/7/vote"; method := POST;
           headers := [("Content-Type", "application/json")];
           body := Some (JObj [("user_id", JStr "17");
                               ("vote_type", JStr "up");
                               ("is_comment", JBool true)]) |}])
  ∧ (post_user_vote loaded_post = Some down
     ∧ head (commits (trace on_post loaded)) =
         Some (sample_state (Some (sample_post 11 None two_comments)) None)
     ∧ requests (trace on_post loaded) =
         [{| url := "https://api.test/hubs/posts/40/vote"; method := POST;
             headers := [("Content-Type", "application/json")];
             body := Some (JObj [("user_id", JStr "17");
                                 ("vote_type", JStr "down");
                                 ("is_comment", JBool false)]) |}])
  ∧ vote_json (spec_vote_type (Some up) up) = JNull
  ∧ vote_json (spec_vote_type (Some down) down) = JNull.
Proof. vm_compute. by repeat split. Qed.

(** C9 (comment deletion), evaluated where the code departs from it: the
    DELETE for comment 8 is answered with status 500.  The handler issues
    the request, then removes comment 8 from the list and raises no error
    notice: it awaits the request without testing [response.ok]. *)
Theorem handleDelete_ignores_failure_status :
  let s := sample_state (Some loaded_post) (Some {| item_id := 8; isComment := true |}) in
  run (handleDelete "https://api.test" server_error) s =
  (Value (),
   {| state := sample_state
                 (Some (sample_post 10 (Some down) [sample_comment 7 3 (Some up)]))
                 None;
      log := [EvFetch {| url := "https://api.test/hubs/posts/8";
                         method := DELETE; headers := []; body := None |};
              EvSet (sample_state
                       (Some (sample_post 10 (Some down)
                                          [sample_comment 7 3 (Some up)]))
                       (Some {| item_id := 8; isComment := true |}));
              EvSet (sample_state
                       (Some (sample_post 10 (Some down)
                                          [sample_comment 7 3 (Some up)]))
                       None)] |}).
Proof. vm_compute. reflexivity. Qed.

End PostPageSpec.

(** ** Properties of the school admin view *)
Module SchoolAdminSpec.
Import SchoolAdmin.

Section Aggregation.
Variable backend : string.
Variable app_url : string.
Variable id : string.

Local Abbreviation fetchSchool := (fetchSchool backend app_url id).
Local Abbreviation four_requests := (four_requests backend id).

Ltac unfold_fetchSchool :=
  unfold run, SchoolAdmin.fetchSchool, promise_all4, try_finally, try_catch,
    modify, get, fetch, await, json, console_error, emit, throw, mbind, mret,
    M_bind, M_ret, bind, ret, ok;
  cbn [state log status payload app].

(** A failed aggregation: the loading flag is raised, the four requests are
    issued, the error is logged and the loading flag is lowered.  The
    school cell is never written. *)
Lemma fetchSchool_failed (net : Network) (s : State) :
  all_succeeded net = false →
  run (fetchSchool net) s =
  (Value (),
   {| state := set_loading false s;
      log := [EvSet (set_loading true s)] ++ (EvFetch <$> four_requests) ++
             [EvConsoleError "Error fetching school:";
              EvSet (set_loading false s)] |}).
Proof.
  destruct net as [o1 o2 o3 o4]. unfold all_succeeded, succeeded.
  cbn [school_outcome members_outcome cohorts_outcome courses_outcome].
  intros Hfail. unfold_fetchSchool.
  cbn [school_outcome members_outcome cohorts_outcome courses_outcome].
  destruct o1 as [|st1 pl1], o2 as [|st2 pl2], o3 as [|st3 pl3],
    o4 as [|st4 pl4]; cbn [state log status payload app]; try reflexivity.
  destruct ((200 <=? st1) && (st1 <=? 299)); [|reflexivity].
  destruct ((200 <=? st2) && (st2 <=? 299)); [|reflexivity].
  destruct ((200 <=? st3) && (st3 <=? 299)); [|reflexivity].
  destruct ((200 <=? st4) && (st4 <=? 299)); [|reflexivity].
  discriminate Hfail.
Qed.

(** A complete aggregation: all four answers are successes with decodable
    bodies, and the composite school is committed in one write. *)
Lemma fetchSchool_loaded (net : Network) (s : State)
    (st1 st2 st3 st4 : Z) (schoolData : SchoolData)
    (membersData : option (list TeamMember))
    (cohortsData : list CohortData) (coursesData : list CourseData) :
  net = {| school_outcome := Resolved st1 (Some schoolData);
           members_outcome := Resolved st2 (Some membersData);
           cohorts_outcome := Resolved st3 (Some cohortsData);
           courses_outcome := Resolved st4 (Some coursesData) |} →
  all_succeeded net = true →
  let sc := transformedSchool app_url schoolData membersData cohortsData coursesData in
  run (fetchSchool net) s =
  (Value (),
   {| state := set_loading false (set_school (Some sc) s);
      log := [EvSet (set_loading true s)] ++ (EvFetch <$> four_requests) ++
             [EvSet (set_school (Some sc) (set_loading true s));
              EvSet (set_loading false (set_school (Some sc) s))] |}).
Proof.
  intros -> Hok. unfold all_succeeded, succeeded in Hok.
  cbn [school_outcome members_outcome cohorts_outcome courses_outcome] in Hok.
  apply andb_prop in Hok as [Hok H4]. apply andb_prop in Hok as [Hok H3].
  apply andb_prop in Hok as [H1 H2].
  unfold_fetchSchool.
  cbn [school_outcome members_outcome cohorts_outcome courses_outcome
       state log status payload app].
  rewrite H1, H2, H3, H4. reflexivity.
Qed.

(** Whatever the answers, the four requests are the requests of the run. *)
Lemma fetchSchool_requests (net : Network) (s : State) :
  requests (trace (fetchSchool net) s) = four_requests.
Proof.
  destruct net as [o1 o2 o3 o4]. unfold trace. unfold_fetchSchool.
  cbn [school_outcome members_outcome cohorts_outcome courses_outcome].
  destruct o1 as [|st1 pl1], o2 as [|st2 pl2], o3 as [|st3 pl3],
    o4 as [|st4 pl4]; cbn [state log status payload app]; try reflexivity.
  destruct ((200 <=? st1) && (st1 <=? 299)); [|reflexivity].
  destruct ((200 <=? st2) && (st2 <=? 299)); [|reflexivity].
  destruct ((200 <=? st3) && (st3 <=? 299)); [|reflexivity].
  destruct ((200 <=? st4) && (st4 <=? 299)); [|reflexivity].
  destruct pl1, pl2, pl3, pl4; reflexivity.
Qed.

(** C6 (admin aggregation is all-or-nothing).  [fetchSchool] issues the
    four requests (organization, members, cohorts, courses) whatever their
    outcomes.  If one of them rejects or answers with a status outside
    200-299, the school cell is never written: the only states committed
    are the loading flag going up and down, so the view model the run ends
    in is the initial one with [loading = false] and no partial school.
    Conversely the school cell changes only if all four succeeded; and when
    all four succeed with decodable bodies the composite school is
    committed. *)
Theorem fetchSchool_all_or_nothing (net : Network) (s : State) :
  requests (trace (fetchSchool net) s) = four_requests
  ∧ (all_succeeded net = false →
       commits (trace (fetchSchool net) s) = [set_loading true s; set_loading false s]
       ∧ final_state (fetchSchool net) s = set_loading false s
       ∧ school (final_state (fetchSchool net) s) = school s)
  ∧ (∀ s', s' ∈ commits (trace (fetchSchool net) s) → school s' ≠ school s →
           all_succeeded net = true)
  ∧ (∀ st1 st2 st3 st4 schoolData membersData cohortsData coursesData,
       net = {| school_outcome := Resolved st1 (Some schoolData);
                members_outcome := Resolved st2 (Some membersData);
                cohorts_outcome := Resolved st3 (Some cohortsData);
                courses_outcome := Resolved st4 (Some coursesData) |} →
       all_succeeded net = true →
       school (final_state (fetchSchool net) s) =
         Some (transformedSchool app_url schoolData membersData
                                 cohortsData coursesData)
       ∧ loading (final_state (fetchSchool net) s) = false).
Proof.
  split; [apply fetchSchool_requests|]. split; [|split].
  - intros Hfail. unfold trace, final_state.
    rewrite (fetchSchool_failed _ _ Hfail). by repeat split.
  - intros s' Hin Hne.
    destruct (all_succeeded net) eqn:Hall; [reflexivity|]. exfalso.
    unfold trace in Hin. rewrite (fetchSchool_failed _ _ Hall) in Hin.
    cbn in Hin.
    apply elem_of_cons in Hin as [->|Hin]; [by apply Hne|].
    apply elem_of_cons in Hin as [->|Hin]; [by apply Hne|].
    by apply elem_of_nil in Hin.
  - intros st1 st2 st3 st4 sd md hd cd Hnet Hall. unfold final_state.
    by rewrite (fetchSchool_loaded _ _ _ _ _ _ _ _ _ _ Hnet Hall).
Qed.

End Aggregation.

Section Selection.
Variable session_user_id : option string.

Local Abbreviation isCurrentUser := (isCurrentUser session_user_id).
Local Abbreviation handleSelectAllMembers := (handleSelectAllMembers session_user_id).
Local Abbreviation handleMemberSelection := (handleMemberSelection session_user_id).
Local Abbreviation owner_or_self := (owner_or_self session_user_id).
Local Abbreviation selection_ok := (selection_ok session_user_id).
Local Abbreviation click := (click session_user_id).
Local Abbreviation clicks := (clicks session_user_id).

Lemma handleSelectAllMembers_checked (s : State) :
  run (handleSelectAllMembers true) s =
  let sel := match school s with
             | Some sc =>
                 filter (λ member, role member ≠ "owner" ∧ isCurrentUser member = false)
                        (members sc)
             | None => []
             end in
  (Value (), {| state := set_selectedMembers sel s;
                log := [EvSet (set_selectedMembers sel s)] |}).
Proof. reflexivity. Qed.

(** C7 (select all).  With the school loaded, ticking "select all" makes
    the selection exactly the members whose role is not owner and who are
    not the signed-in user, in table order; for members
    [[owner; self; A; B]] that is [[A; B]].  Unticking it empties the
    selection. *)
Theorem handleSelectAllMembers_selects (s : State) (sc : School) :
  school s = Some sc →
  let sel := selectedMembers (final_state (handleSelectAllMembers true) s) in
  (∀ member, member ∈ sel ↔
             member ∈ members sc ∧ role member ≠ "owner" ∧ isCurrentUser member = false)
  ∧ (∀ owner self A B,
       members sc = [owner; self; A; B] →
       role owner = "owner" → isCurrentUser self = true →
       role A ≠ "owner" → isCurrentUser A = false →
       role B ≠ "owner" → isCurrentUser B = false →
       sel = [A; B])
  ∧ selectedMembers (final_state (handleSelectAllMembers false) s) = [].
Proof.
  intros Hsc. unfold final_state. rewrite handleSelectAllMembers_checked, Hsc.
  cbn [snd state selectedMembers set_selectedMembers].
  split; [|split; [|reflexivity]].
  - intros member. rewrite list_elem_of_filter. tauto.
  - intros owner self A B -> Ho Hs HA1 HA2 HB1 HB2.
    rewrite filter_cons_False by (intros [Hr _]; by apply Hr).
    rewrite filter_cons_False by (rewrite Hs; intros [_ Hc]; discriminate Hc).
    rewrite filter_cons_True by done.
    rewrite filter_cons_True by done.
    reflexivity.
Qed.

(** *** The selection invariant *)

Lemma commits_snoc {S} (t : list (Event S)) (s : S) :
  commits (t ++ [EvSet s]) = commits t ++ [s].
Proof. unfold commits. by rewrite omap_app. Qed.

(** One click keeps the invariant, completes normally, and commits only
    states that satisfy it. *)
Lemma click_keeps_selection_ok (c : Click) (w : World State) :
  selection_ok (state w) →
  ∃ w', click c w = (Value (), w')
        ∧ selection_ok (state w')
        ∧ ∀ s', s' ∈ commits (log w') → s' ∈ commits (log w) ∨ selection_ok s'.
Proof.
  intros Hok. destruct w as [s t]; cbn [state] in Hok.
  assert (Hsame : ∃ w', (Value (), {| state := s; log := t |}) = (Value (), w')
            ∧ selection_ok (state w')
            ∧ ∀ s', s' ∈ commits (log w') → s' ∈ commits t ∨ selection_ok s').
  { eexists; split; [reflexivity|]. split; [exact Hok|]. by left. }
  assert (Hset : ∀ sel, (∀ m, m ∈ sel → ¬ owner_or_self m) →
            ∃ w', (Value (), {| state := set_selectedMembers sel s;
                                log := t ++ [EvSet (set_selectedMembers sel s)] |})
                    = (Value (), w')
            ∧ selection_ok (state w')
            ∧ ∀ s', s' ∈ commits (log w') → s' ∈ commits t ∨ selection_ok s').
  { intros sel Hsel. eexists; split; [reflexivity|]. split; [exact Hsel|].
    intros s'. cbn [log]. rewrite commits_snoc, elem_of_app, list_elem_of_singleton.
    intros [?| ->]; [by left|by right]. }
  destruct c as [checked|row].
  - unfold SchoolAdmin.click, SchoolAdmin.handleSelectAllMembers, modify, get,
      mbind, mret, M_bind, M_ret, bind, ret; cbn [state log].
    destruct (hasSelectableMembers session_user_id s); [|exact Hsame].
    destruct checked; cbn [state log].
    + apply Hset. intros m Hm [Ho|Hs];
        destruct (school s); [|by apply elem_of_nil in Hm| |by apply elem_of_nil in Hm];
        apply list_elem_of_filter in Hm as [[Hr Hc] _]; congruence.
    + apply Hset. intros m Hm. by apply elem_of_nil in Hm.
  - unfold SchoolAdmin.click, SchoolAdmin.handleMemberSelection, modify, get,
      mbind, mret, M_bind, M_ret, bind, ret; cbn [state log].
    destruct (school s) as [sc|]; [|exact Hsame].
    destruct (members sc !! row) as [member|]; [|exact Hsame].
    destruct (bool_decide (role member ≠ "owner")) eqn:Hrole; [|exact Hsame].
    destruct (SchoolAdmin.isCurrentUser session_user_id member) eqn:Hself;
      cbn [negb andb]; [exact Hsame|].
    apply bool_decide_eq_true in Hrole.
    apply Hset. intros m Hm.
    destruct (existsb _ _).
    + apply list_elem_of_filter in Hm as [_ Hm]. by apply Hok.
    + apply elem_of_app in Hm as [Hm|Hm]; [by apply Hok|].
      apply list_elem_of_singleton in Hm as ->.
      intros [Ho|Hs]; congruence.
Qed.

Lemma clicks_keep_selection_ok (cs : list Click) (w : World State) :
  selection_ok (state w) →
  ∃ w', clicks cs w = (Value (), w')
        ∧ selection_ok (state w')
        ∧ ∀ s', s' ∈ commits (log w') → s' ∈ commits (log w) ∨ selection_ok s'.
Proof.
  revert w; induction cs as [|c cs IH]; intros w Hok.
  - exists w. split; [reflexivity|]. split; [exact Hok|]. by left.
  - destruct (click_keeps_selection_ok c w Hok) as (w1 & Hrun1 & Hok1 & Hc1).
    destruct (IH w1 Hok1) as (w2 & Hrun2 & Hok2 & Hc2).
    exists w2. split; [|split; [exact Hok2|]].
    + cbn [SchoolAdmin.clicks]. unfold mbind, M_bind, bind.
      by rewrite Hrun1.
    + intros s' Hs'. destruct (Hc2 s' Hs') as [Hin|?]; [|by right].
      by apply Hc1.
Qed.

(** C8 (owner and signed-in user are never selected).  Starting from a
    selection without the owner and the signed-in user (the initial
    selection is empty), after any sequence of clicks on the selection
    controls of the members table (a member's checkbox, "select all" ticked
    or unticked) the selection still contains no member whose role is owner
    and no member who is the signed-in user; the same holds for every state
    committed along the way. *)
Theorem selection_never_contains_owner_or_self (cs : list Click) (s : State) :
  selection_ok s →
  (∀ member, member ∈ selectedMembers (final_state (clicks cs) s) →
             role member ≠ "owner" ∧ isCurrentUser member = false)
  ∧ (∀ s' member, s' ∈ commits (trace (clicks cs) s) →
                  member ∈ selectedMembers s' →
                  role member ≠ "owner" ∧ isCurrentUser member = false).
Proof.
  intros Hok.
  destruct (clicks_keep_selection_ok cs {| state := s; log := [] |} Hok)
    as (w' & Hrun & Hok' & Hc).
  assert (Hsplit : ∀ m, ¬ owner_or_self m →
            role m ≠ "owner" ∧ isCurrentUser m = false).
  { intros m Hm. split.
    - intros Ho. apply Hm. by left.
    - destruct (SchoolAdmin.isCurrentUser session_user_id m) eqn:E; [|reflexivity].
      exfalso. apply Hm. by right. }
  unfold final_state, trace, run. rewrite Hrun. cbn [snd]. split.
  - intros m Hm. by apply Hsplit, Hok'.
  - intros s' m Hs' Hm. destruct (Hc s' Hs') as [Hin|Hs'ok].
    + by apply elem_of_nil in Hin.
    + by apply Hsplit, Hs'ok.
Qed.

End Selection.

(** *** The theorems at concrete inputs *)

Lemma fetchSchool_all_or_nothing_witness :
  school (final_state (fetchSchool "https://api.test" "https://app.test" "5"
                                   courses_fail) initial_state) = None
  ∧ loading (final_state (fetchSchool "https://api.test" "https://app.test" "5"
                                      courses_fail) initial_state) = false
  ∧ school (final_state (fetchSchool "https://api.test" "https://app.test" "5"
                                     all_fine) initial_state) =
      Some {| school_id := 5; school_name := "Test School";
              school_url := "https://app.test/school/test-school";
              courses := [{| course_id := 6; course_name := "Intro";
                             moduleCount := 0; description := EmptyString |}];
              cohorts := [{| cohort_id := 9; cohort_name := "Batch 1" |}];
              members := [sample_owner; sample_self] |}.
Proof.
  destruct (fetchSchool_all_or_nothing "https://api.test" "https://app.test" "5"
              courses_fail initial_state) as (_ & Hfail & _ & _).
  destruct (Hfail eq_refl) as (_ & Hfinal & Hschool).
  destruct (fetchSchool_all_or_nothing "https://api.test" "https://app.test" "5"
              all_fine initial_state) as (_ & _ & _ & Hloaded).
  destruct (Hloaded _ _ _ _ _ _ _ _ eq_refl eq_refl) as [Hsc _].
  split; [exact Hschool|]. split; [|exact Hsc].
  exact (f_equal loading Hfinal).
Defined.

Lemma handleSelectAllMembers_selects_witness :
  selectedMembers (final_state (handleSelectAllMembers (Some "2") true)
                               sample_loaded) = [sample_A; sample_B]
  ∧ selectedMembers (final_state (handleSelectAllMembers (Some "2") false)
                                 sample_loaded) = [].
Proof.
  destruct (handleSelectAllMembers_selects (Some "2") sample_loaded sample_school
              eq_refl) as (_ & Hex & Hnone).
  split; [|exact Hnone].
  apply (Hex sample_owner sample_self sample_A sample_B);
    solve [reflexivity | discriminate].
Defined.

Lemma initial_selection_ok : selection_ok (Some "2") sample_loaded.
Proof. intros member Hm. by apply elem_of_nil in Hm. Defined.

Lemma selection_never_contains_owner_or_self_witness :
  Forall (λ member, role member ≠ "owner"
                    ∧ isCurrentUser (Some "2") member = false)
         (selectedMembers
            (final_state (clicks (Some "2")
                            [ClickSelectAll true; ClickMember 0; ClickMember 2;
                             ClickMember 1; ClickSelectAll false; ClickMember 3])
                         sample_loaded)).
Proof.
  apply Forall_forall.
  exact (proj1 (selection_never_contains_owner_or_self (Some "2")
                  [ClickSelectAll true; ClickMember 0; ClickMember 2;
                   ClickMember 1; ClickSelectAll false; ClickMember 3]
                  sample_loaded initial_selection_ok)).
Defined.

(** Two click sequences, run: rows 0 and 1 (owner, signed-in user) have no
    checkbox, so only the clicks on rows 2 and 3 toggle. *)
Example clicks_sample_run :
  selectedMembers (final_state (clicks (Some "2")
                     [ClickSelectAll true; ClickMember 0; ClickMember 2;
                      ClickMember 1])
                  sample_loaded) = [sample_B]
  ∧ selectedMembers (final_state (clicks (Some "2")
                       [ClickSelectAll true; ClickMember 0; ClickMember 2;
                        ClickMember 1; ClickSelectAll false; ClickMember 3])
                    sample_loaded) = [sample_B].
Proof. split; vm_compute; reflexivity. Qed.

(** [handleMemberSelection] itself tests only [isCurrentUser]: called on
    the owner it would select the owner.  The exclusion of the owner from
    individual toggling is the render condition of the row checkbox, which
    [click] carries. *)
Remark handleMemberSelection_guards_self_only :
  selectedMembers (final_state (handleMemberSelection (Some "2") sample_owner)
                               sample_loaded) = [sample_owner]
  ∧ selectedMembers (final_state (handleMemberSelection (Some "2") sample_self)
                                 sample_loaded) = [].
Proof. split; vm_compute; reflexivity. Qed.

End SchoolAdminSpec.

(** ** Further properties of the post page *)
Module PostPageMoreSpec.
Import PostPage PostPageMore PostPageSpec.

Section Votes.
Variable backend : string.
Variable net : Request → FetchOutcome Json.

(** [handleVote] started in any world: the log grows by the events of the
    run. *)
Lemma handleVote_from (u : User) (itemId : Z) (isC : bool) (r : Vote)
    (w : World State) :
  let s := state w in
  let pv := optimistic itemId isC r (post s) initial_vars in
  let s1 := set_post pv.1 s in
  let req := vote_request backend u itemId isC (Some r) in
  let s2 := set_post (rollback itemId isC pv.2 pv.1) s1 in
  handleVote backend (Some u) net itemId isC r w =
  if succeeded (net req)
  then (Value (), {| state := s1; log := log w ++ [EvFetch req; EvSet s1] |})
  else (Value (),
        {| state := s2;
           log := log w ++
                  [EvFetch req; EvSet s1;
                   EvConsoleError "Failed to submit vote:";
                   EvAlert "There was an error submitting your vote. Please try again.";
                   EvSet s2] |}).
Proof.
  cbv zeta.
  unfold handleVote, render_queued, setPost, try_catch, modify, get,
    fetch, await, alert, console_error, emit, throw, mbind, mret,
    M_bind, M_ret, bind, ret, succeeded, ok.
  cbn [state log originalVote initial_vars].
  rewrite decide_False by discriminate.
  destruct (optimistic itemId isC r (post (state w)) initial_vars) as [p vars].
  cbn [fst snd state log].
  destruct (net _) as [|st pl]; cbn [state log status];
    [rewrite <- !app_assoc; reflexivity|].
  destruct ((200 <=? st) && (st <=? 299)); cbn [negb state log];
    rewrite <- !app_assoc; reflexivity.
Qed.

(** When every request succeeds, the state after a vote is the optimistic
    one. *)
Lemma handleVote_state_ok (u : User) (itemId : Z) (isC : bool) (r : Vote)
    (w : World State) :
  (∀ req, succeeded (net req) = true) →
  ∃ t, handleVote backend (Some u) net itemId isC r w =
       (Value (),
        {| state := set_post (optimistic itemId isC r (post (state w)) initial_vars).1
                             (state w);
           log := t |}).
Proof.
  intros Hok. rewrite handleVote_from, Hok. by eexists.
Qed.

Lemma others_share_voted {T} `{LawfulVotable T} (r : Vote) (item : T) :
  others_share (spec_voted r item) = others_share item.
Proof.
  unfold others_share, spec_voted, spec_votes, spec_user_vote, own_share.
  rewrite votes_spread, user_vote_spread.
  destruct (user_vote item) as [[]|], r; repeat case_decide;
    simplify_eq; cbn; lia.
Qed.

Lemma id_voted {T} `{LawfulVotable T} (r : Vote) (item : T) :
  id (spec_voted r item) = id item.
Proof. apply id_spread. Qed.

Lemma clicked_twice_spread {T} `{LawfulVotable T} (r : Vote) (item : T) :
  clicked_twice r item =
  spread_vote item
    (if decide (user_vote item = Some (opposite r))
     then others_share item else votes item)
    (if decide (user_vote item = Some (opposite r))
     then None else user_vote item).
Proof.
  unfold clicked_twice. case_decide; [reflexivity|].
  symmetry. apply spread_same.
Qed.

Lemma voted_twice {T} `{LawfulVotable T} (r : Vote) (item : T) :
  spec_voted r (spec_voted r item) = clicked_twice r item.
Proof.
  rewrite clicked_twice_spread.
  unfold spec_voted at 1. unfold spec_voted.
  rewrite votes_spread, user_vote_spread, spread_spread.
  unfold spec_votes, spec_user_vote, opposite, others_share, own_share.
  destruct (user_vote item) as [[]|], r; repeat case_decide;
    simplify_eq; f_equal; lia.
Qed.

(** The post an optimistic update commits, for any loaded or missing
    post. *)
Lemma optimistic_fst (itemId : Z) (isC : bool) (r : Vote) (po : option Post)
    (vars : VoteVars) :
  (optimistic itemId isC r po vars).1 =
  if isC then
    (λ p, with_comments p
            (map (λ c, if decide (id c = itemId) then spec_voted r c else c)
                 (comments p))) <$> po
  else spec_voted r <$> po.
Proof.
  destruct po as [p|]; [|by destruct isC].
  destruct isC.
  - apply optimistic_comment_items.
  - by rewrite optimistic_post.
Qed.

(** X1.  A vote never changes what the other users contributed: in the
    state [handleVote] first commits, the post and every
    comment have the same score net of the user's own vote as before,
    whichever button was clicked and whichever item was the target. *)
Theorem handleVote_keeps_others_share (u : User) (itemId : Z) (isC : bool)
    (r : Vote) (s : State) (P : Post) :
  post s = Some P →
  ∃ P',
    head (commits (trace (handleVote backend (Some u) net itemId isC r) s)) =
      Some (set_post (Some P') s)
    ∧ others_share P' = others_share P
    ∧ Forall2 (λ c c', others_share c' = others_share c ∧ id c' = id c)
              (comments P) (comments P').
Proof.
  intros HP. rewrite handleVote_commits_head, optimistic_fst, HP.
  destruct isC; cbn [fmap option_fmap option_map]; eexists;
    (split; [reflexivity|]).
  - split; [reflexivity|]. cbn [comments with_comments].
    induction (comments P) as [|c cs IH]; [constructor|].
    cbn [map]. constructor; [|exact IH].
    case_decide; [|done]. by rewrite others_share_voted, id_voted.
  - split; [apply others_share_voted|].
    replace (comments (spec_voted r P)) with (comments P) by reflexivity.
    induction (comments P) as [|c cs IH]; by constructor.
Qed.

(** Two votes in a row when every request succeeds: the second starts from
    the state the first committed. *)
Lemma two_votes_state (u : User) (a b : Z) (ca cb : bool) (ra rb : Vote)
    (s : State) :
  (∀ req, succeeded (net req) = true) →
  final_state (handleVote backend (Some u) net a ca ra;;
               handleVote backend (Some u) net b cb rb) s =
  let s1 := set_post (optimistic a ca ra (post s) initial_vars).1 s in
  set_post (optimistic b cb rb (post s1) initial_vars).1 s1.
Proof.
  intros Hok. unfold final_state, run, mbind, M_bind, bind.
  destruct (handleVote_state_ok u a ca ra {| state := s; log := [] |} Hok)
    as [t1 Ht1].
  cbn [state] in Ht1. rewrite Ht1.
  destruct (handleVote_state_ok u b cb rb
              {| state := set_post (optimistic a ca ra (post s) initial_vars).1 s;
                 log := t1 |} Hok) as [t2 Ht2].
  cbn [state] in Ht2. by rewrite Ht2.
Qed.

Lemma map_clicked_twice_same (itemId : Z) (r : Vote) (cs : list Comment) :
  (∀ c, c ∈ cs → id c = itemId → user_vote c ≠ Some (opposite r)) →
  map (λ c, if decide (id c = itemId) then clicked_twice r c else c) cs = cs.
Proof.
  induction cs as [|c cs IH]; intros Hno; [reflexivity|].
  cbn [map]. rewrite IH by (intros d Hd; apply Hno; by right).
  f_equal. case_decide as Hc; [|reflexivity].
  unfold clicked_twice. rewrite decide_False; [reflexivity|].
  apply Hno; [by left|exact Hc].
Qed.

(** X2.  Clicking the same button twice, with both requests accepted,
    brings the item back to where it was, unless it carried the opposite
    vote: then the vote is removed and the score is the others' share.
    This holds for the post and for every comment carrying [itemId]. *)
Theorem double_click_restores (u : User) (itemId : Z) (r : Vote)
    (s : State) (P : Post) :
  post s = Some P →
  (∀ req, succeeded (net req) = true) →
  (final_state (handleVote backend (Some u) net itemId false r;;
                handleVote backend (Some u) net itemId false r) s =
     set_post (Some (clicked_twice r P)) s
   ∧ (user_vote P ≠ Some (opposite r) →
      final_state (handleVote backend (Some u) net itemId false r;;
                   handleVote backend (Some u) net itemId false r) s = s))
  ∧ (final_state (handleVote backend (Some u) net itemId true r;;
                  handleVote backend (Some u) net itemId true r) s =
       set_post (Some (with_comments P
                         (map (λ c, if decide (id c = itemId)
                                    then clicked_twice r c else c)
                              (comments P)))) s
     ∧ ((∀ c, c ∈ comments P → id c = itemId →
              user_vote c ≠ Some (opposite r)) →
        final_state (handleVote backend (Some u) net itemId true r;;
                     handleVote backend (Some u) net itemId true r) s = s)).
Proof.
  intros HP Hok.
  assert (Hpost :
    final_state (handleVote backend (Some u) net itemId false r;;
                 handleVote backend (Some u) net itemId false r) s =
    set_post (Some (clicked_twice r P)) s).
  { rewrite two_votes_state by done. cbv zeta.
    rewrite !optimistic_fst, HP. cbn [fmap option_fmap option_map post set_post].
    rewrite voted_twice. by destruct s. }
  assert (Hcom :
    final_state (handleVote backend (Some u) net itemId true r;;
                 handleVote backend (Some u) net itemId true r) s =
    set_post (Some (with_comments P
                      (map (λ c, if decide (id c = itemId)
                                 then clicked_twice r c else c)
                           (comments P)))) s).
  { rewrite two_votes_state by done. cbv zeta.
    rewrite !optimistic_fst, HP.
    cbn [fmap option_fmap option_map post set_post comments with_comments].
    assert (Hmap :
      map (λ c, if decide (id c = itemId) then spec_voted r c else c)
          (map (λ c, if decide (id c = itemId) then spec_voted r c else c)
               (comments P)) =
      map (λ c, if decide (id c = itemId) then clicked_twice r c else c)
          (comments P)).
    { rewrite map_map. apply map_ext. intros c.
      destruct (decide (id c = itemId)) as [Hc|Hc].
      - rewrite decide_True by (by rewrite id_voted). by rewrite voted_twice.
      - by rewrite decide_False. }
    rewrite Hmap. by destruct s, P. }
  split; split; try done.
  - intros Hno. rewrite Hpost. unfold clicked_twice.
    rewrite decide_False by done. rewrite <- HP. apply set_post_same.
  - intros Hno. rewrite Hcom.
    rewrite map_clicked_twice_same by done.
    rewrite with_comments_same, <- HP. apply set_post_same.
Qed.

(** X3.  One run of [handleVote] with a user present issues one request
    and tells the user about it only when it failed: after a success there
    is no alert and the single committed state is the final one; after a
    failure there is exactly one alert and a second commit. *)
Theorem handleVote_alerts_only_on_failure (u : User) (itemId : Z) (isC : bool)
    (r : Vote) (s : State) :
  ∃ req,
    requests (trace (handleVote backend (Some u) net itemId isC r) s) = [req]
    ∧ if succeeded (net req)
      then alerts (trace (handleVote backend (Some u) net itemId isC r) s) = []
           ∧ commits (trace (handleVote backend (Some u) net itemId isC r) s) =
               [final_state (handleVote backend (Some u) net itemId isC r) s]
      else alerts (trace (handleVote backend (Some u) net itemId isC r) s) =
             ["There was an error submitting your vote. Please try again."]
           ∧ length (commits (trace (handleVote backend (Some u) net itemId isC r) s))
             = 2%nat.
Proof.
  eexists. unfold trace, final_state. rewrite handleVote_run.
  destruct (succeeded _) eqn:E; (split; [reflexivity|]); rewrite E; by split.
Qed.

(** X4.  Votes on different items do not interfere when the requests are
    accepted: two comment votes for different ids, and a post vote and a
    comment vote, end in the same state in either order. *)
Theorem votes_on_different_items_commute (u : User) (a b : Z) (ra rb : Vote)
    (s : State) :
  (∀ req, succeeded (net req) = true) →
  (a ≠ b →
   final_state (handleVote backend (Some u) net a true ra;;
                handleVote backend (Some u) net b true rb) s =
   final_state (handleVote backend (Some u) net b true rb;;
                handleVote backend (Some u) net a true ra) s)
  ∧ final_state (handleVote backend (Some u) net a false ra;;
                 handleVote backend (Some u) net b true rb) s =
    final_state (handleVote backend (Some u) net b true rb;;
                 handleVote backend (Some u) net a false ra) s.
Proof.
  intros Hok. split; [intros Hab|]; rewrite !two_votes_state by done;
    cbv zeta; rewrite !optimistic_fst;
    destruct (post s) as [P|] eqn:HP;
    cbn [fmap option_fmap option_map post set_post comments with_comments];
    try reflexivity.
  - assert (Hmap :
      map (λ c, if decide (id c = b) then spec_voted rb c else c)
          (map (λ c, if decide (id c = a) then spec_voted ra c else c)
               (comments P)) =
      map (λ c, if decide (id c = a) then spec_voted ra c else c)
          (map (λ c, if decide (id c = b) then spec_voted rb c else c)
               (comments P))).
    { rewrite !map_map. apply map_ext. intros c.
      destruct (decide (id c = a)) as [Ha|Ha], (decide (id c = b)) as [Hb|Hb];
        try congruence; rewrite ?id_voted; repeat case_decide; congruence. }
    rewrite Hmap. reflexivity.
Qed.

(** X5.  The vote buttons after a click, as [getVoteButtonClass] renders
    the item [updateItem] returns: the other button is never highlighted,
    and the clicked button is highlighted exactly when the click was not an
    un-vote.  At no time are both buttons of an item highlighted. *)
Theorem vote_buttons_after_click {T} `{LawfulVotable T} (r : Vote) (item : T)
    (vars : VoteVars) :
  let item' := (updateItem r item vars).1 in
  getVoteButtonClass (user_vote item') (opposite r) = "text-gray-400"
  ∧ (getVoteButtonClass (user_vote item') r = "text-gray-400" ↔
     user_vote item = Some r)
  ∧ (∀ uv, getVoteButtonClass uv up = "text-gray-400"
           ∨ getVoteButtonClass uv down = "text-gray-400").
Proof.
  cbv zeta. rewrite updateItem_item. unfold spec_voted.
  rewrite user_vote_spread. unfold getVoteButtonClass, spec_user_vote, opposite.
  split; [|split].
  - destruct (user_vote item) as [[]|], r; repeat case_decide; by simplify_eq.
  - destruct (user_vote item) as [[]|], r; repeat case_decide; simplify_eq;
      split; intros; by simplify_eq.
  - intros [[]|]; repeat case_decide; simplify_eq; auto.
Qed.

End Votes.

Section Loading.
Variable backend : string.
Variable user : option User.
Variable postId : string.
Variable trim : string → string.
Variable parseInt : string → option Z.

Local Abbreviation post_request := (post_request backend user postId).
Local Abbreviation load_error :=
  "Could not load the post. It may have been deleted or the link is incorrect."%string.

Ltac unfold_js :=
  unfold try_finally, try_catch, modify, get, fetch, await, json, alert,
    console_error, emit, throw, mbind, mret, M_bind, M_ret, bind, ret, ok;
  cbn [state log status payload].

(** [fetchPost] started in any world. *)
Lemma fetchPost_from (net_post : Request → FetchOutcome Post) (w : World State) :
  postId ≠ EmptyString →
  let s := state w in
  fetchPost backend user postId net_post w =
  match delivered (net_post post_request) with
  | Some data =>
      (Value (),
       {| state := set_loading false (set_post (Some data) s);
          log := log w ++
                 [EvSet (set_loading true s); EvFetch post_request;
                  EvSet (set_post (Some data) (set_loading true s));
                  EvSet (set_loading false (set_post (Some data) s))] |})
  | None =>
      (Value (),
       {| state := set_loading false (set_error (Some load_error) s);
          log := log w ++
                 [EvSet (set_loading true s); EvFetch post_request;
                  EvSet (set_error (Some load_error) (set_loading true s));
                  EvSet (set_loading false (set_error (Some load_error) s))] |})
  end.
Proof.
  intros Hid. cbv zeta. unfold fetchPost, delivered.
  rewrite decide_False by done. unfold_js.
  destruct (net_post _) as [|st [data|]]; cbn [state log status payload];
    [rewrite <- !app_assoc; reflexivity| |];
    destruct ((200 <=? st) && (st <=? 299)); cbn [negb state log status payload];
    rewrite <- !app_assoc; reflexivity.
Qed.

(** X6.  A load that fails (the promise rejects, the status is outside
    200-299, or the body cannot be decoded) keeps the post that was on
    screen, records the error message, and ends with [loading = false];
    one request was issued.  Without a post id nothing happens at all. *)
Theorem fetchPost_failure_keeps_post (net_post : Request → FetchOutcome Post)
    (s : State) :
  (postId ≠ EmptyString →
   delivered (net_post post_request) = None →
   final_state (fetchPost backend user postId net_post) s =
     set_loading false (set_error (Some load_error) s)
   ∧ post (final_state (fetchPost backend user postId net_post) s) = post s
   ∧ requests (trace (fetchPost backend user postId net_post) s) = [post_request])
  ∧ (postId = EmptyString →
     run (fetchPost backend user postId net_post) s =
       (Value (), {| state := s; log := [] |})).
Proof.
  split.
  - intros Hid Hfail. unfold final_state, trace, run.
    rewrite (fetchPost_from _ _ Hid), Hfail. by repeat split.
  - intros Hid. unfold run, fetchPost. by rewrite decide_True.
Qed.

(** X7.  A successful load commits the fetched post and lowers [loading],
    and leaves the [error] cell alone: after a failed load followed by a
    successful one, the page holds the post together with the error
    message of the first attempt. *)
Theorem fetchPost_success_keeps_error
    (net1 net2 : Request → FetchOutcome Post) (data : Post) (s : State) :
  postId ≠ EmptyString →
  delivered (net1 post_request) = None →
  delivered (net2 post_request) = Some data →
  final_state (fetchPost backend user postId net2) s =
    set_loading false (set_post (Some data) s)
  ∧ error (final_state (fetchPost backend user postId net2) s) = error s
  ∧ final_state (fetchPost backend user postId net1;;
                 fetchPost backend user postId net2) s =
      set_loading false (set_post (Some data) (set_error (Some load_error) s)).
Proof.
  intros Hid H1 H2. unfold final_state, run, mbind, M_bind, bind.
  rewrite !(fetchPost_from _ _ Hid), H1, H2. cbn [state log snd].
  rewrite (fetchPost_from _ _ Hid), H2. by repeat split.
Qed.

Section Commenting.
Variable net : Request → FetchOutcome Json.
Variable net_post : Request → FetchOutcome Post.

Local Abbreviation handleAddComment :=
  (handleAddComment backend user postId net net_post trim parseInt).
Local Abbreviation comment_request := (comment_request backend parseInt).

(** X8.  [handleAddComment] does nothing at all (no state commit, no
    request, no notice) when the text is blank after trimming, when nobody
    is signed in, or when no post is loaded. *)
Theorem handleAddComment_guard (s : State) :
  trim (newComment s) = EmptyString ∨ user = None ∨ post s = None →
  run handleAddComment s = (Value (), {| state := s; log := [] |}).
Proof.
  intros Hg. unfold run, PostPageMore.handleAddComment, get, mbind, M_bind, bind.
  cbn [state log].
  destruct user as [u|], (post s) as [p|]; try reflexivity.
  destruct Hg as [Hg|[Hg|Hg]]; [|discriminate Hg|discriminate Hg].
  by rewrite decide_True.
Qed.

Lemma handleAddComment_failed (u : User) (p : Post) (s : State) :
  user = Some u →
  post s = Some p →
  trim (newComment s) ≠ EmptyString →
  succeeded (net (comment_request u p (newComment s))) = false →
  run handleAddComment s =
  (Value (),
   {| state := set_isSubmitting false s;
      log := [EvSet (set_isSubmitting true s);
              EvFetch (comment_request u p (newComment s));
              EvConsoleError "handleAddComment error:";
              EvAlert "Failed to post your comment. Please try again.";
              EvSet (set_isSubmitting false s)] |}).
Proof.
  intros Hu Hp Ht Hfail.
  unfold run, PostPageMore.handleAddComment.
  rewrite Hu. unfold get, mbind at 1, M_bind at 1, bind at 1. cbn [state log].
  rewrite Hp, decide_False by done.
  unfold succeeded in Hfail. unfold_js.
  destruct (net _) as [|st pl]; cbn [state log status payload];
    [reflexivity|].
  rewrite Hfail. reflexivity.
Qed.

Lemma handleAddComment_created (u : User) (p : Post) (s : State) :
  user = Some u →
  post s = Some p →
  trim (newComment s) ≠ EmptyString →
  postId ≠ EmptyString →
  succeeded (net (comment_request u p (newComment s))) = true →
  run handleAddComment s =
  let s1 := set_isSubmitting true s in
  let '(s2, ev) :=
    match delivered (net_post post_request) with
    | Some data =>
        (set_loading false (set_post (Some data) s1),
         [EvSet (set_post (Some data) (set_loading true s1));
          EvSet (set_loading false (set_post (Some data) s1))])
    | None =>
        (set_loading false (set_error (Some load_error) s1),
         [EvSet (set_error (Some load_error) (set_loading true s1));
          EvSet (set_loading false (set_error (Some load_error) s1))])
    end in
  (Value (),
   {| state := set_isSubmitting false (set_newComment EmptyString s2);
      log := [EvSet s1; EvFetch (comment_request u p (newComment s));
              EvSet (set_loading true s1); EvFetch post_request] ++ ev ++
             [EvSet (set_newComment EmptyString s2);
              EvSet (set_isSubmitting false (set_newComment EmptyString s2))] |}).
Proof.
  intros Hu Hp Ht Hid Hok.
  unfold run, PostPageMore.handleAddComment.
  rewrite Hu. unfold get, mbind at 1, M_bind at 1, bind at 1. cbn [state log].
  rewrite Hp, decide_False by done.
  unfold succeeded in Hok.
  unfold try_finally, try_catch, modify, get, fetch, await, alert,
    console_error, emit, throw, mbind, mret, M_bind, M_ret, bind, ret, ok.
  cbn [state log status payload].
  destruct (net _) as [|st pl]; [discriminate Hok|].
  cbn [state log status payload]. rewrite Hok. cbn [negb].
  rewrite <- Hu, (fetchPost_from _ _ Hid).
  by destruct (delivered _).
Qed.

(** X9.  When the creation request fails, the text the user typed is
    kept, the post on screen is unchanged, one alert is raised, no re-fetch
    is issued, and [isSubmitting] is lowered again. *)
Theorem handleAddComment_failure_keeps_text (u : User) (p : Post) (s : State) :
  user = Some u →
  post s = Some p →
  trim (newComment s) ≠ EmptyString →
  succeeded (net (comment_request u p (newComment s))) = false →
  final_state handleAddComment s = set_isSubmitting false s
  ∧ newComment (final_state handleAddComment s) = newComment s
  ∧ post (final_state handleAddComment s) = Some p
  ∧ requests (trace handleAddComment s) = [comment_request u p (newComment s)]
  ∧ alerts (trace handleAddComment s) =
      ["Failed to post your comment. Please try again."].
Proof.
  intros Hu Hp Ht Hfail. unfold final_state, trace.
  rewrite (handleAddComment_failed u p s) by done.
  by repeat split.
Qed.

(** X10.  When the creation request succeeds, the post is re-fetched
    (second and last request), the text box is cleared, and no alert is
    raised, whether or not the re-fetch succeeds: a failed re-fetch keeps
    the old post and only records the load error. *)
Theorem handleAddComment_success_refetches (u : User) (p : Post) (s : State) :
  user = Some u →
  post s = Some p →
  trim (newComment s) ≠ EmptyString →
  postId ≠ EmptyString →
  succeeded (net (comment_request u p (newComment s))) = true →
  requests (trace handleAddComment s) =
    [comment_request u p (newComment s); post_request]
  ∧ alerts (trace handleAddComment s) = []
  ∧ newComment (final_state handleAddComment s) = EmptyString
  ∧ isSubmitting (final_state handleAddComment s) = false
  ∧ loading (final_state handleAddComment s) = false
  ∧ post (final_state handleAddComment s) =
      match delivered (net_post post_request) with
      | Some data => Some data
      | None => Some p
      end
  ∧ error (final_state handleAddComment s) =
      match delivered (net_post post_request) with
      | Some data => error s
      | None => Some load_error
      end.
Proof.
  intros Hu Hp Ht Hid Hok. unfold final_state, trace.
  rewrite (handleAddComment_created u p s) by done. cbv zeta.
  destruct (delivered _); by repeat split.
Qed.

End Commenting.
End Loading.

Section Deleting.
Variable backend : string.
Variable net : Request → FetchOutcome Json.

(** Deleting the post itself: the view navigates back when the promise
    resolves, and only reports when it rejects. *)
Lemma handleDelete_post (s : State) (it : ItemRef) :
  itemToDelete s = Some it →
  isComment it = false →
  run (handleDelete backend net) s =
  (Value (),
   {| state := set_itemToDelete None s;
      log := EvFetch (delete_request backend (item_id it)) ::
             match net (delete_request backend (item_id it)) with
             | Rejected =>
                 [EvConsoleError "Failed to delete item:";
                  EvAlert "Failed to delete. Please try again.";
                  EvSet (set_itemToDelete None s)]
             | Resolved _ _ =>
                 [EvRouterBack; EvSet (set_itemToDelete None s)]
             end |}).
Proof.
  intros Hit Hc.
  unfold run, handleDelete, try_finally, try_catch, setPost, modify, get,
    fetch, await, alert, console_error, router_back, emit, throw, mbind, mret,
    M_bind, M_ret, bind, ret.
  cbn [state log]. rewrite Hit, Hc.
  by destruct (net _).
Qed.

(** X11.  Once an item is picked for deletion, [handleDelete] issues
    exactly one DELETE for its id and always ends with [itemToDelete]
    cleared, so the confirmation dialog closes whatever the outcome.  For
    the post itself the local post is left as it is, and the view navigates
    back exactly when the promise resolves.  With nothing picked the
    handler does nothing. *)
Theorem handleDelete_always_closes (s : State) :
  (∀ it, itemToDelete s = Some it →
     itemToDelete (final_state (handleDelete backend net) s) = None
     ∧ requests (trace (handleDelete backend net) s) =
         [delete_request backend (item_id it)]
     ∧ (isComment it = false →
        post (final_state (handleDelete backend net) s) = post s
        ∧ (EvRouterBack ∈ trace (handleDelete backend net) s ↔
           net (delete_request backend (item_id it)) ≠ Rejected)))
  ∧ (itemToDelete s = None →
     run (handleDelete backend net) s = (Value (), {| state := s; log := [] |})).
Proof.
  split.
  - intros it Hit. destruct (isComment it) eqn:Hc.
    + unfold final_state, trace.
      destruct (net (delete_request backend (item_id it))) as [|st pl] eqn:Hnet.
      * rewrite (handleDelete_rejected _ _ _ _ Hit Hnet). by repeat split.
      * rewrite (handleDelete_resolved _ _ _ _ _ _ Hit Hc Hnet). by repeat split.
    + unfold final_state, trace. rewrite (handleDelete_post _ _ Hit Hc).
      destruct (net _) as [|st pl]; repeat split; try done.
      * intros Hin. cbn in Hin.
        repeat (apply elem_of_cons in Hin as [Hin|Hin]; [discriminate Hin|]).
        by apply elem_of_nil in Hin.
      * intros _. cbn. apply elem_of_cons; right. by apply elem_of_cons; left.
  - intros Hit. unfold run, handleDelete, get, mbind, M_bind, bind.
    cbn [state]. by rewrite Hit.
Qed.

(** X12.  When the DELETE for a comment resolves, the comments left on
    screen are exactly the old comments whose id differs from the deleted
    id, in their old order, and the rest of the post is untouched; deleting
    an id that no comment carries leaves the post as it was. *)
Theorem handleDelete_removes_by_id (s : State) (it : ItemRef) (P : Post)
    (st : Z) (pl : option Json) :
  itemToDelete s = Some it →
  isComment it = true →
  post s = Some P →
  net (delete_request backend (item_id it)) = Resolved st pl →
  ∃ P',
    post (final_state (handleDelete backend net) s) = Some P'
    ∧ (∀ c, c ∈ comments P' ↔ c ∈ comments P ∧ id c ≠ item_id it)
    ∧ comments P' `sublist_of` comments P
    ∧ with_comments P' (comments P) = P
    ∧ ((∀ c, c ∈ comments P → id c ≠ item_id it) → P' = P).
Proof.
  intros Hit Hc HP Hnet. unfold final_state.
  rewrite (handleDelete_resolved _ _ _ _ _ _ Hit Hc Hnet). cbv zeta.
  cbn [snd state]. rewrite HP. cbn [without_comment set_post set_itemToDelete post].
  eexists. split; [reflexivity|]. cbn [comments with_comments].
  split; [|split; [|split]].
  - intros c. rewrite list_elem_of_filter. tauto.
  - apply sublist_filter.
  - by destruct P.
  - intros Hno.
    replace (filter (λ c, id c ≠ item_id it) (comments P)) with (comments P).
    { apply with_comments_same. }
    clear HP. induction (comments P) as [|c cs IH]; [reflexivity|].
    rewrite filter_cons_True by (apply Hno; by left).
    f_equal. apply IH. intros d Hd. apply Hno. by right.
Qed.

End Deleting.

(** *** The theorems at concrete inputs *)

Lemma handleVote_keeps_others_share_witness :
  ∃ P',
    head (commits (trace (handleVote "https://api.test" (Some sample_user)
                                     server_ok 40 false up) loaded)) =
      Some (set_post (Some P') loaded)
    ∧ others_share P' = 11.
Proof.
  destruct (handleVote_keeps_others_share "https://api.test" server_ok
              sample_user 40 false up loaded loaded_post eq_refl)
    as (P' & Hhead & Hshare & _).
  exists P'. exact (conj Hhead Hshare).
Defined.

Lemma double_click_restores_witness :
  final_state (handleVote "https://api.test" (Some sample_user) server_ok
                          40 false down;;
               handleVote "https://api.test" (Some sample_user) server_ok
                          40 false down) loaded = loaded.
Proof.
  apply (proj2 (proj1 (double_click_restores "https://api.test" server_ok
                         sample_user 40 down loaded loaded_post eq_refl
                         (λ _, eq_refl)))).
  discriminate.
Defined.

Lemma votes_on_different_items_commute_witness :
  final_state (handleVote "https://api.test" (Some sample_user) server_ok
                          7 true up;;
               handleVote "https://api.test" (Some sample_user) server_ok
                          8 true down) loaded =
  final_state (handleVote "https://api.test" (Some sample_user) server_ok
                          8 true down;;
               handleVote "https://api.test" (Some sample_user) server_ok
                          7 true up) loaded.
Proof.
  apply (proj1 (votes_on_different_items_commute "https://api.test" server_ok
                  sample_user 7 8 up down loaded (λ _, eq_refl))).
  discriminate.
Defined.

Lemma vote_buttons_after_click_witness :
  getVoteButtonClass
    (user_vote (updateItem up (sample_comment 8 0 None) initial_vars).1) down
  = "text-gray-400".
Proof.
  exact (proj1 (vote_buttons_after_click up (sample_comment 8 0 None)
                  initial_vars)).
Defined.

Lemma fetchPost_failure_keeps_post_witness :
  post (final_state (fetchPost "https://api.test" (Some sample_user) "40"
                               post_server_gone) loaded) = Some loaded_post.
Proof.
  destruct (proj1 (fetchPost_failure_keeps_post "https://api.test"
                     (Some sample_user) "40" post_server_gone loaded))
    as (_ & Hpost & _); [discriminate|reflexivity|].
  exact Hpost.
Defined.

Lemma fetchPost_success_keeps_error_witness :
  error (final_state (fetchPost "https://api.test" (Some sample_user) "40"
                                post_server_gone;;
                      fetchPost "https://api.test" (Some sample_user) "40"
                                post_server_ok) loaded) =
    Some "Could not load the post. It may have been deleted or the link is incorrect."
  ∧ post (final_state (fetchPost "https://api.test" (Some sample_user) "40"
                                 post_server_gone;;
                       fetchPost "https://api.test" (Some sample_user) "40"
                                 post_server_ok) loaded) = Some refetched_post.
Proof.
  destruct (fetchPost_success_keeps_error "https://api.test" (Some sample_user)
              "40" post_server_gone post_server_ok refetched_post loaded)
    as (_ & _ & Hseq); [discriminate|reflexivity|reflexivity|].
  split; [exact (f_equal error Hseq)|exact (f_equal post Hseq)].
Defined.

Lemma handleAddComment_guard_witness :
  run (handleAddComment "https://api.test" None "40" server_ok post_server_ok
                        sample_trim sample_parseInt) (typing "Thanks!") =
  (Value (), {| state := typing "Thanks!"; log := [] |}).
Proof.
  apply handleAddComment_guard. right; left; reflexivity.
Defined.

Lemma handleAddComment_failure_keeps_text_witness :
  newComment (final_state (handleAddComment "https://api.test" (Some sample_user)
                             "40" server_error post_server_ok
                             sample_trim sample_parseInt) (typing "Thanks!"))
  = "Thanks!".
Proof.
  destruct (handleAddComment_failure_keeps_text "https://api.test"
              (Some sample_user) "40" sample_trim sample_parseInt
              server_error post_server_ok sample_user loaded_post
              (typing "Thanks!")) as (_ & Htext & _);
    [reflexivity|reflexivity|vm_compute; discriminate|reflexivity|].
  exact Htext.
Defined.

Lemma handleAddComment_success_refetches_witness :
  newComment (final_state (handleAddComment "https://api.test" (Some sample_user)
                             "40" server_ok post_server_ok
                             sample_trim sample_parseInt) (typing "Thanks!"))
    = EmptyString
  ∧ post (final_state (handleAddComment "https://api.test" (Some sample_user)
                         "40" server_ok post_server_ok
                         sample_trim sample_parseInt) (typing "Thanks!"))
    = Some refetched_post.
Proof.
  destruct (handleAddComment_success_refetches "https://api.test"
              (Some sample_user) "40" sample_trim sample_parseInt
              server_ok post_server_ok sample_user loaded_post
              (typing "Thanks!")) as (_ & _ & Htext & _ & _ & Hpost & _);
    [reflexivity|reflexivity|vm_compute; discriminate|discriminate
    |reflexivity|].
  exact (conj Htext Hpost).
Defined.

Lemma handleDelete_always_closes_witness :
  itemToDelete (final_state (handleDelete "https://api.test" server_down)
                            picked_post) = None
  ∧ post (final_state (handleDelete "https://api.test" server_down)
                      picked_post) = Some loaded_post.
Proof.
  destruct (proj1 (handleDelete_always_closes "https://api.test" server_down
                     picked_post) _ eq_refl) as (Hnone & _ & Hpost).
  exact (conj Hnone (proj1 (Hpost eq_refl))).
Defined.

Lemma handleDelete_removes_by_id_witness :
  ∃ P',
    post (final_state (handleDelete "https://api.test" server_ok)
                      picked_comment) = Some P'
    ∧ comments P' `sublist_of` two_comments.
Proof.
  destruct (handleDelete_removes_by_id "https://api.test" server_ok
              picked_comment _ loaded_post 200 None eq_refl eq_refl eq_refl
              eq_refl) as (P' & Hpost & _ & Hsub & _).
  exists P'. exact (conj Hpost Hsub).
Defined.

End PostPageMoreSpec.

(** ** Further properties of the school admin view *)
Module AdminViewSpec.
Import SchoolAdmin AdminView.

Section Selecting.
Variable session_user_id : option string.

Local Abbreviation isCurrentUser := (isCurrentUser session_user_id).
Local Abbreviation handleSelectAllMembers := (handleSelectAllMembers session_user_id).
Local Abbreviation handleMemberSelection := (handleMemberSelection session_user_id).
Local Abbreviation hasSelectableMembers := (hasSelectableMembers session_user_id).
Local Abbreviation areAllMembersSelected := (areAllMembersSelected session_user_id).
Local Abbreviation click := (click session_user_id).

Lemma set_selectedMembers_same (s : State) :
  set_selectedMembers (selectedMembers s) s = s.
Proof. by destruct s. Qed.

(** The render condition of the header checkbox, in terms of the filter
    that "select all" applies. *)
Lemma hasSelectableMembers_filter (s : State) (sc : School) :
  school s = Some sc →
  hasSelectableMembers s =
  bool_decide (0 < length (filter (λ member, role member ≠ "owner"
                                             ∧ isCurrentUser member = false)
                                  (members sc)))%nat.
Proof.
  intros Hsc. unfold SchoolAdmin.hasSelectableMembers. rewrite Hsc.
  induction (members sc) as [|m l IH]; [reflexivity|].
  cbn [existsb]. rewrite filter_cons.
  destruct (decide (role m ≠ "owner" ∧ isCurrentUser m = false)) as [[Hr Hc]|Hn].
  - rewrite (bool_decide_eq_true_2 _ Hr), Hc. cbn [negb andb orb length].
    symmetry. apply bool_decide_eq_true_2. lia.
  - rewrite IH.
    replace (bool_decide (role m ≠ "owner") && negb (isCurrentUser m))
      with false; [reflexivity|].
    symmetry. apply andb_false_iff.
    destruct (isCurrentUser m); [by right|left].
    apply bool_decide_eq_false_2. intros Hr. by apply Hn.
Qed.

(** X13.  The header checkbox tells the truth after it is used: after a
    click that ticks "select all", [areAllMembersSelected] holds exactly
    when the checkbox is rendered at all ([hasSelectableMembers]), and
    after unticking it never holds.  The checkbox is rendered exactly when
    ticking it would select somebody. *)
Theorem select_all_checks_header (s : State) :
  areAllMembersSelected (final_state (click (ClickSelectAll true)) s) =
    hasSelectableMembers s
  ∧ areAllMembersSelected (final_state (handleSelectAllMembers false) s) = false
  ∧ (hasSelectableMembers s = true ↔
     selectedMembers (final_state (handleSelectAllMembers true) s) ≠ []).
Proof.
  unfold final_state, run, SchoolAdmin.click, SchoolAdmin.handleSelectAllMembers,
    modify, get, mbind, mret, M_bind, M_ret, bind, ret.
  cbn [state log snd].
  destruct (school s) as [sc|] eqn:Hsc.
  - rewrite (hasSelectableMembers_filter s sc Hsc).
    set (sel := filter _ (members sc)).
    split; [|split].
    + destruct (bool_decide (0 < length sel)%nat) eqn:Hlen;
        cbn [state snd]; unfold AdminView.areAllMembersSelected;
        cbn [school set_selectedMembers selectedMembers]; rewrite Hsc;
        fold sel; rewrite Hlen; [|reflexivity].
      by rewrite bool_decide_eq_true_2.
    + unfold AdminView.areAllMembersSelected.
      cbn [state snd school set_selectedMembers selectedMembers]. rewrite Hsc.
      fold sel. destruct sel; [reflexivity|].
      cbn [length]. rewrite andb_false_intro2; [reflexivity|].
      by apply bool_decide_eq_false_2.
    + cbn [state snd selectedMembers set_selectedMembers].
      rewrite bool_decide_eq_true. destruct sel; cbn [length]; split;
        try done; lia.
  - unfold SchoolAdmin.hasSelectableMembers, AdminView.areAllMembersSelected.
    rewrite Hsc. cbn [state snd school set_selectedMembers selectedMembers].
    rewrite Hsc. by repeat split.
Qed.

(** One toggle of a member who is not the signed-in user, as a function on
    the selection. *)
Lemma handleMemberSelection_run (member : TeamMember) (w : World State) :
  isCurrentUser member = false →
  handleMemberSelection member w =
  let sel := selectedMembers (state w) in
  let sel' :=
    if existsb (λ m, bool_decide (member_id m = member_id member)) sel
    then filter (λ m, member_id m ≠ member_id member) sel
    else sel ++ [member] in
  (Value (), {| state := set_selectedMembers sel' (state w);
                log := log w ++ [EvSet (set_selectedMembers sel' (state w))] |}).
Proof.
  intros Hc. unfold SchoolAdmin.handleMemberSelection. by rewrite Hc.
Qed.

Lemma existsb_member_id (k : Z) (l : list TeamMember) :
  existsb (λ m, bool_decide (member_id m = k)) l = true ↔
  ∃ m, m ∈ l ∧ member_id m = k.
Proof.
  induction l as [|x l IH]; cbn [existsb].
  - split; [done|]. intros (m & Hm & _). by apply elem_of_nil in Hm.
  - rewrite orb_true_iff, IH, bool_decide_eq_true. split.
    + intros [Hx|(m & Hm & Hk)]; [exists x|exists m]; split; try done;
        [by left|by right].
    + intros (m & Hm & Hk). apply elem_of_cons in Hm as [->|Hm];
        [by left|right; by exists m].
Qed.

(** X14.  Ticking a member's checkbox flips whether that member's id is
    selected and leaves every other member's selection as it was; for the
    signed-in user the handler does nothing. *)
Theorem handleMemberSelection_toggles (member : TeamMember) (s : State) :
  (isCurrentUser member = false →
   let sel := selectedMembers s in
   let sel' := selectedMembers (final_state (handleMemberSelection member) s) in
   ((∃ m, m ∈ sel' ∧ member_id m = member_id member) ↔
    ¬ ∃ m, m ∈ sel ∧ member_id m = member_id member)
   ∧ ∀ m, member_id m ≠ member_id member → (m ∈ sel' ↔ m ∈ sel))
  ∧ (isCurrentUser member = true →
     run (handleMemberSelection member) s = (Value (), {| state := s; log := [] |})).
Proof.
  split.
  - intros Hc. unfold final_state, run.
    rewrite (handleMemberSelection_run _ _ Hc). cbv zeta.
    cbn [state snd selectedMembers set_selectedMembers].
    destruct (existsb _ (selectedMembers s)) eqn:Hex.
    + apply existsb_member_id in Hex. split.
      * split; [|done]. intros (m & Hm & Hk).
        apply list_elem_of_filter in Hm as [Hne _]. done.
      * intros m Hne. rewrite list_elem_of_filter. tauto.
    + assert (Hnone : ¬ ∃ m, m ∈ selectedMembers s ∧ member_id m = member_id member).
      { intros Hm. apply existsb_member_id in Hm. congruence. }
      split.
      * split; [done|]. intros _. exists member. split; [|done].
        apply elem_of_app; right. by apply list_elem_of_singleton.
      * intros m Hne. rewrite elem_of_app, list_elem_of_singleton.
        split; [|by left]. intros [?| ->]; done.
  - intros Hc. unfold run, SchoolAdmin.handleMemberSelection. by rewrite Hc.
Qed.

(** X15.  Ticking and unticking a member who was not selected restores
    the selection exactly. *)
Theorem handleMemberSelection_twice (member : TeamMember) (s : State) :
  isCurrentUser member = false →
  (∀ m, m ∈ selectedMembers s → member_id m ≠ member_id member) →
  final_state (handleMemberSelection member;; handleMemberSelection member) s = s.
Proof.
  intros Hc Hfresh. unfold final_state, run, mbind, M_bind, bind.
  rewrite !(handleMemberSelection_run _ _ Hc). cbv zeta.
  cbn [state snd selectedMembers set_selectedMembers].
  assert (Hex : existsb (λ m, bool_decide (member_id m = member_id member))
                        (selectedMembers s) = false).
  { destruct (existsb _ _) eqn:E; [|reflexivity].
    apply existsb_member_id in E as (m & Hm & Hk). by destruct (Hfresh m Hm). }
  rewrite Hex. cbn [state snd selectedMembers set_selectedMembers].
  assert (Hex' : existsb (λ m, bool_decide (member_id m = member_id member))
                         (selectedMembers s ++ [member]) = true).
  { apply existsb_member_id. exists member. split; [|done].
    apply elem_of_app; right. by apply list_elem_of_singleton. }
  rewrite (handleMemberSelection_run _ _ Hc). cbv zeta.
  cbn [state snd selectedMembers set_selectedMembers].
  rewrite Hex'. rewrite filter_app, filter_cons_False, filter_nil by (by intros ?).
  rewrite app_nil_r.
  replace (filter _ (selectedMembers s)) with (selectedMembers s).
  { by destruct s. }
  revert Hfresh. clear. induction (selectedMembers s) as [|x l IH]; intros Hfresh;
    [reflexivity|].
  rewrite filter_cons_True by (apply Hfresh; by left).
  f_equal. apply IH. intros m Hm. apply Hfresh. by right.
Qed.

End Selecting.

Section Removing.
Variable backend : string.
Variable id : string.
Variable session_user_id : option string.
Variable fetch_error : string.
Variable net : Request → FetchOutcome Json.
Variable net_members : Request → FetchOutcome (list TeamMember).

Local Abbreviation confirmDeleteMember :=
  (confirmDeleteMember backend id fetch_error net net_members).
Local Abbreviation handleInviteMembers :=
  (handleInviteMembers backend id fetch_error net net_members).
Local Abbreviation remove_request := (remove_request backend id).
Local Abbreviation invite_request := (invite_request backend id).
Local Abbreviation members_request := (members_request backend id).
Local Abbreviation handleDeleteMember := (handleDeleteMember session_user_id).
Local Abbreviation isCurrentUser := (isCurrentUser session_user_id).

Ltac unfold_view :=
  unfold try_finally, try_catch, modify, get, await_fetch, fetch, json, alert,
    console_error, emit, throw, mbind, mret, M_bind, M_ret, bind, ret, ok;
  cbn [state log status payload].

Lemma requests_app {S} (t1 t2 : list (Event S)) :
  requests (t1 ++ t2) = requests t1 ++ requests t2.
Proof. unfold requests. apply omap_app. Qed.

(** [confirmDeleteMember] with something to remove, from any world. *)
Lemma confirmDeleteMember_from (w : World View) :
  membersToDelete (state w) ≠ [] →
  let v := state w in
  let req := remove_request (membersToDelete v) in
  let got := refreshed_members (net req) (net_members members_request) in
  ∃ t,
    confirmDeleteMember w =
      (Value (),
       {| state :=
            closed_dialog
              match got with
              | Some l =>
                  set_showToast true
                    (set_toastMessage (removed_toast (membersToDelete v))
                       (on_core (set_members l) v))
              | None => v
              end;
          log := log w ++ t |})
    ∧ requests t =
        req :: (if succeeded (net req) then [members_request] else []).
Proof.
  intros Hne. cbv zeta.
  unfold AdminView.confirmDeleteMember, refreshed_members, succeeded,
    PostPageMore.delivered.
  unfold get, mbind at 1, M_bind at 1, bind at 1. cbn [state log].
  fold (membersToDelete (state w)).
  rewrite decide_False by (by destruct (membersToDelete (state w))).
  unfold_view.
  destruct (net _) as [|st pl]; cbn [state log status payload].
  { eexists. split; [rewrite <- !app_assoc; reflexivity|reflexivity]. }
  destruct ((200 <=? st) && (st <=? 299)); cbn [negb state log status payload];
    [|eexists; split; [rewrite <- !app_assoc; reflexivity|reflexivity]].
  destruct (net_members _) as [|st2 [l|]]; cbn [state log status payload];
    [eexists; split; [rewrite <- !app_assoc; reflexivity|reflexivity]| |];
    destruct ((200 <=? st2) && (st2 <=? 299));
    cbn [negb state log status payload];
    eexists; (split; [rewrite <- !app_assoc; reflexivity|reflexivity]).
Qed.

(** X16.  Confirming with nothing to remove (no member picked and an
    empty selection) returns before the [try], so nothing is committed: in
    particular the confirmation dialog keeps its state. *)
Theorem confirmDeleteMember_nothing_to_remove (v : View) :
  membersToDelete v = [] →
  run confirmDeleteMember v = (Value (), {| state := v; log := [] |}).
Proof.
  intros Hnil. unfold run, AdminView.confirmDeleteMember.
  unfold get, mbind, M_bind, bind. cbn [state log].
  fold (membersToDelete v). rewrite Hnil. by rewrite decide_True.
Qed.

(** X17.  Confirming a removal always ends with the dialog closed, no
    member picked and the selection empty, whatever the server answers.
    The member list is replaced, and the toast shown, only when the DELETE
    succeeded and the re-fetch delivered a list; otherwise the school and
    the toast cells are exactly as before.  The first request is the DELETE
    carrying the ids of the members to remove. *)
Theorem confirmDeleteMember_cleans_up (v : View) :
  membersToDelete v ≠ [] →
  let v' := final_state confirmDeleteMember v in
  let req := remove_request (membersToDelete v) in
  selectedMembers (core v') = []
  ∧ memberToDelete (core v') = None
  ∧ isDeleteConfirmOpen (core v') = false
  ∧ head (requests (trace confirmDeleteMember v)) = Some req
  ∧ match refreshed_members (net req) (net_members members_request) with
    | Some l =>
        school (core v') = (λ sc, with_members sc l) <$> school (core v)
        ∧ showToast v' = true
        ∧ toastMessage v' = removed_toast (membersToDelete v)
    | None =>
        school (core v') = school (core v)
        ∧ showToast v' = showToast v
        ∧ toastMessage v' = toastMessage v
    end.
Proof.
  intros Hne. cbv zeta. unfold final_state, trace, run.
  destruct (confirmDeleteMember_from {| state := v; log := [] |} Hne)
    as (t & -> & Hreq).
  cbn [state log snd app]. rewrite Hreq.
  repeat (split; [reflexivity|]).
  destruct (refreshed_members _ _); by repeat split.
Qed.

(** What a handler of the inner cells does inside the whole view. *)
Lemma zoom_run {A} (m : M State A) (w : World View) (a : A) (w' : World State) :
  m {| state := core (state w); log := [] |} = (Value a, w') →
  zoom m w =
  (Value a, {| state := set_core (state w') (state w);
               log := log w ++ (lift_event (state w) <$> log w') |}).
Proof. intros Hm. unfold zoom. by rewrite Hm. Qed.

Lemma requests_lift (v : View) (t : list (Event State)) :
  requests (lift_event v <$> t) = requests t.
Proof.
  induction t as [|e t IH]; [reflexivity|].
  destruct e; cbn; by rewrite ?IH; try apply IH; f_equal.
Qed.

(** X18.  Removing one member with the row button sends the DELETE for
    that member alone, even when other members were ticked, and the ticks
    are dropped; the row button of the signed-in user does nothing. *)
Theorem remove_single_member (member : TeamMember) (v : View) :
  (isCurrentUser member = false →
   head (requests (trace (zoom (handleDeleteMember member);;
                          confirmDeleteMember) v)) =
     Some (remove_request [member])
   ∧ selectedMembers (core (final_state (zoom (handleDeleteMember member);;
                                         confirmDeleteMember) v)) = []
   ∧ isDeleteConfirmOpen (core (final_state (zoom (handleDeleteMember member)) v))
     = true)
  ∧ (isCurrentUser member = true →
     run (handleDeleteMember member) (core v) =
       (Value (), {| state := core v; log := [] |})).
Proof.
  split.
  - intros Hc.
    assert (Hrun : ∃ w1,
      zoom (handleDeleteMember member) {| state := v; log := [] |} = (Value (), w1)
      ∧ membersToDelete (state w1) = [member]
      ∧ isDeleteConfirmOpen (core (state w1)) = true
      ∧ requests (log w1) = []).
    { eexists. split.
      - apply zoom_run. unfold AdminView.handleDeleteMember. rewrite Hc.
        reflexivity.
      - by repeat split. }
    destruct Hrun as (w1 & Hz & Hm & Hopen & Hreq1).
    assert (Hne : membersToDelete (state w1) ≠ []) by (by rewrite Hm).
    destruct (confirmDeleteMember_from w1 Hne) as (t & Hconf & Hreq).
    unfold final_state, trace, run, mbind, M_bind, bind.
    rewrite Hz, Hconf. cbn [state log snd].
    rewrite requests_app, Hreq1, Hreq, Hm. by repeat split.
  - intros Hc. unfold run, AdminView.handleDeleteMember. by rewrite Hc.
Qed.

Lemma clicks_no_requests (cs : list Click) (w : World State) :
  requests (log (clicks session_user_id cs w).2) = requests (log w).
Proof.
  revert w; induction cs as [|c cs IH]; intros w; [reflexivity|].
  cbn [clicks]. unfold mbind, M_bind, bind.
  assert (Hc : ∃ w1, click session_user_id c w = (Value (), w1)
                     ∧ requests (log w1) = requests (log w)).
  { unfold click, handleSelectAllMembers, handleMemberSelection, modify, get,
      mbind, mret, M_bind, M_ret, bind, ret; cbn [state log].
    destruct c as [checked|row].
    - destruct (hasSelectableMembers _ _); [|by eexists].
      destruct checked; eexists; (split; [reflexivity|]); cbn [log];
        by rewrite requests_app, app_nil_r.
    - destruct (school (state w)) as [sc|]; [|by eexists].
      destruct (members sc !! row) as [m|]; [|by eexists].
      destruct (_ && _); [|by eexists].
      destruct (SchoolAdmin.isCurrentUser _ m); [by eexists|].
      eexists; (split; [reflexivity|]); cbn [log].
      by rewrite requests_app, app_nil_r. }
  destruct Hc as (w1 & -> & <-). apply IH.
Qed.

(** One click leaves the school as it is and ticks only members listed
    in it. *)
Lemma click_keeps_members (c : Click) (w : World State) (sc : School) :
  school (state w) = Some sc →
  (∀ m, m ∈ selectedMembers (state w) → m ∈ members sc) →
  ∃ w', click session_user_id c w = (Value (), w')
        ∧ school (state w') = Some sc
        ∧ ∀ m, m ∈ selectedMembers (state w') → m ∈ members sc.
Proof.
  intros Hsc Hsub. destruct w as [s t]; cbn [state] in *.
  unfold click, handleSelectAllMembers, handleMemberSelection, modify, get,
    mbind, mret, M_bind, M_ret, bind, ret; cbn [state log].
  assert (Hsame : ∃ w', (Value (), {| state := s; log := t |}) = (Value (), w')
            ∧ school (state w') = Some sc
            ∧ ∀ m, m ∈ selectedMembers (state w') → m ∈ members sc).
  { eexists; split; [reflexivity|]. by split. }
  destruct c as [checked|row].
  - destruct (hasSelectableMembers _ _); [|exact Hsame].
    destruct checked; cbn [state log]; eexists; (split; [reflexivity|]);
      cbn [state school selectedMembers set_selectedMembers];
      (split; [exact Hsc|]).
    + rewrite Hsc. intros m Hm. by apply list_elem_of_filter in Hm as [_ Hm].
    + intros m Hm. by apply elem_of_nil in Hm.
  - rewrite Hsc. destruct (members sc !! row) as [member|] eqn:Hrow;
      [|exact Hsame].
    destruct (_ && _); [|exact Hsame].
    destruct (SchoolAdmin.isCurrentUser _ member); [exact Hsame|].
    eexists; split; [reflexivity|].
    cbn [state school selectedMembers set_selectedMembers].
    split; [exact Hsc|].
    intros m Hm. destruct (existsb _ _).
    + apply list_elem_of_filter in Hm as [_ Hm]. by apply Hsub.
    + apply elem_of_app in Hm as [Hm|Hm]; [by apply Hsub|].
      apply list_elem_of_singleton in Hm as ->.
      by eapply list_elem_of_lookup_2.
Qed.

Lemma clicks_keep_members (cs : list Click) (w : World State) (sc : School) :
  school (state w) = Some sc →
  (∀ m, m ∈ selectedMembers (state w) → m ∈ members sc) →
  ∃ w', clicks session_user_id cs w = (Value (), w')
        ∧ school (state w') = Some sc
        ∧ ∀ m, m ∈ selectedMembers (state w') → m ∈ members sc.
Proof.
  revert w; induction cs as [|c cs IH]; intros w Hsc Hsub.
  - exists w. by repeat split.
  - destruct (click_keeps_members c w sc Hsc Hsub) as (w1 & Hrun1 & Hsc1 & Hsub1).
    destruct (IH w1 Hsc1 Hsub1) as (w2 & Hrun2 & Hsc2 & Hsub2).
    exists w2. split; [|by split].
    cbn [clicks]. unfold mbind, M_bind, bind. by rewrite Hrun1.
Qed.

(** In a list without repeated ids, the id determines the member. *)
Lemma member_of_id (l : list TeamMember) (x y : TeamMember) :
  NoDup (member_id <$> l) → x ∈ l → y ∈ l → member_id x = member_id y → x = y.
Proof.
  induction l as [|a l IH]; intros Hnd Hx Hy Hf.
  - by apply elem_of_nil in Hx.
  - rewrite fmap_cons in Hnd. apply NoDup_cons in Hnd as [Hna Hnd].
    apply elem_of_cons in Hx as [->|Hx]; apply elem_of_cons in Hy as [->|Hy].
    + reflexivity.
    + exfalso. apply Hna. rewrite Hf. by apply list_elem_of_fmap_2.
    + exfalso. apply Hna. rewrite <- Hf. by apply list_elem_of_fmap_2.
    + by apply IH.
Qed.

(** The requests of a bulk removal, after clicks that end in world [w1]:
    none when nothing is ticked, otherwise the DELETE for the ticked
    members, followed by the re-fetch of the list when it succeeded. *)
Lemma bulk_removal_requests (cs : list Click) (v : View) (w1 : World State) :
  clicks session_user_id cs {| state := core v; log := [] |} = (Value (), w1) →
  let sel := selectedMembers (state w1) in
  requests (trace (zoom (clicks session_user_id cs);;
                   zoom handleDeleteSelectedMembers;;
                   confirmDeleteMember) v) =
  if decide (sel = []) then []
  else remove_request sel ::
       (if succeeded (net (remove_request sel)) then [members_request] else []).
Proof.
  intros Hcl. cbv zeta.
  pose proof (clicks_no_requests cs {| state := core v; log := [] |}) as Hnr.
  rewrite Hcl in Hnr. cbn [snd log] in Hnr.
  unfold trace, run, mbind, M_bind, bind.
  rewrite (zoom_run (clicks session_user_id cs) {| state := v; log := [] |}
             () w1 Hcl).
  cbn [state log].
  unfold zoom at 1.
  unfold handleDeleteSelectedMembers, modify, mbind, M_bind, bind.
  cbn [state log].
  match goal with
  | |- context [confirmDeleteMember {| state := ?x; log := ?l |}] =>
      set (v2 := x); set (t2 := l)
  end.
  assert (Hm : membersToDelete v2 = selectedMembers (state w1)) by reflexivity.
  assert (Ht2 : requests t2 = []).
  { subst t2. cbn [app].
    repeat first [rewrite requests_app | rewrite requests_lift].
    by rewrite Hnr. }
  destruct (decide (selectedMembers (state w1) = [])) as [Hnil|Hne].
  - unfold AdminView.confirmDeleteMember.
    unfold get, mbind, M_bind, bind. cbn [state log].
    fold (membersToDelete v2). rewrite Hm, Hnil.
    rewrite decide_True by done.
    unfold mret, M_ret, ret. cbn [snd log]. exact Ht2.
  - destruct (confirmDeleteMember_from {| state := v2; log := t2 |})
      as (t & Hconf & Hreq); [cbn [state]; by rewrite Hm|].
    rewrite Hconf. cbn [snd log state] in *.
    by rewrite requests_app, Ht2, Hreq, Hm.
Qed.

(** X19.  Bulk removal can never target the owner or the signed-in user.
    Start with the school loaded and a selection of listed members without
    the owner and the signed-in user (on mount it is empty), click the
    selection controls in any order, then press "Remove" and confirm.  If
    nothing is ticked no request is issued.  Otherwise the first request,
    and the only DELETE, is the one to [/organizations/id/members] whose
    body lists under [user_ids] exactly the ids of the members ticked at
    that moment.  None of these ids is the signed-in user's; each belongs
    to a listed member whose role is not owner; and when the listed ids
    are distinct, no owner's id is among them. *)
Theorem bulk_removal_spares_owner_and_self (cs : list Click) (v : View)
    (sc : School) :
  school (core v) = Some sc →
  selection_ok session_user_id (core v) →
  (∀ m, m ∈ selectedMembers (core v) → m ∈ members sc) →
  let sel := selectedMembers (final_state (clicks session_user_id cs) (core v)) in
  let ids := member_id <$> sel in
  let removal :=
    {| url := backend +:+ "/organizations/" +:+ id +:+ "/members";
       method := DELETE;
       headers := [("Content-Type", "application/json")];
       body := Some (JObj [("user_ids", JArr (JNum <$> ids))]) |} in
  let sent := requests (trace (zoom (clicks session_user_id cs);;
                               zoom handleDeleteSelectedMembers;;
                               confirmDeleteMember) v) in
  (∀ req, req ∈ sent → method req = DELETE → req = removal)
  ∧ (sel = [] → sent = [])
  ∧ (sel ≠ [] → head sent = Some removal)
  ∧ (∀ i, i ∈ ids → session_user_id ≠ Some (pretty i))
  ∧ (∀ i, i ∈ ids →
       ∃ m, m ∈ members sc ∧ member_id m = i ∧ role m ≠ "owner")
  ∧ (NoDup (member_id <$> members sc) →
     ∀ o, o ∈ members sc → role o = "owner" → member_id o ∉ ids).
Proof.
  intros Hsc Hok Hsub. cbv zeta.
  destruct (SchoolAdminSpec.clicks_keep_selection_ok session_user_id cs
              {| state := core v; log := [] |} Hok) as (w1 & Hcl & Hok1 & _).
  destruct (clicks_keep_members cs {| state := core v; log := [] |} sc Hsc Hsub)
    as (w1' & Hcl' & Hsc1 & Hsub1).
  rewrite Hcl in Hcl'. injection Hcl' as <-.
  rewrite (bulk_removal_requests cs v w1 Hcl).
  replace (final_state (clicks session_user_id cs) (core v)) with (state w1)
    by (unfold final_state, run; by rewrite Hcl).
  set (sel := selectedMembers (state w1)) in *.
  assert (Hremoval : remove_request sel =
    {| url := backend +:+ "/organizations/" +:+ id +:+ "/members";
       method := DELETE;
       headers := [("Content-Type", "application/json")];
       body := Some (JObj [("user_ids",
                           JArr (JNum <$> (member_id <$> sel)))]) |}).
  { unfold AdminView.remove_request. by rewrite <- list_fmap_compose. }
  rewrite <- Hremoval.
  assert (Hlisted : ∀ i, i ∈ member_id <$> sel →
            ∃ m, m ∈ members sc ∧ member_id m = i ∧ role m ≠ "owner").
  { intros i Hi. apply list_elem_of_fmap in Hi as (m & -> & Hm).
    exists m. split; [by apply Hsub1|]. split; [reflexivity|].
    intros Hr. apply (Hok1 m Hm). by left. }
  split; [|split; [|split; [|split; [|split]]]].
  - intros req Hin Hdel. destruct (decide (sel = [])).
    + by apply elem_of_nil in Hin.
    + apply elem_of_cons in Hin as [->|Hin]; [reflexivity|].
      destruct (succeeded _); [|by apply elem_of_nil in Hin].
      apply list_elem_of_singleton in Hin as ->. discriminate Hdel.
  - intros Hnil. by rewrite decide_True.
  - intros Hne. by rewrite decide_False.
  - intros i Hi Hself. apply list_elem_of_fmap in Hi as (m & -> & Hm).
    apply (Hok1 m Hm). right.
    unfold SchoolAdmin.isCurrentUser. by apply bool_decide_eq_true.
  - exact Hlisted.
  - intros Hnd o Ho Hrole Hin.
    destruct (Hlisted _ Hin) as (m & Hm & Hid & Hr).
    apply Hr. by rewrite (member_of_id (members sc) m o Hnd Hm Ho Hid).
Qed.

(** X20.  An invitation changes the view only when the POST succeeded
    and the re-fetch delivered a list: then the member list alone is
    replaced (courses, cohorts and the rest of the school, the selection
    and the hubs stay), the dialog closes and the toast shows.  In every
    other case the view is exactly as before, so the dialog stays open and
    no toast appears; the member list is requested only after a successful
    POST. *)
Theorem handleInviteMembers_all_or_nothing (emails : list string) (v : View) :
  let v' := final_state (handleInviteMembers emails) v in
  let req := invite_request emails in
  match refreshed_members (net req) (net_members members_request) with
  | Some l =>
      v' = set_showToast true
             (set_toastMessage (invited_toast emails)
                (set_isInviteDialogOpen false (on_core (set_members l) v)))
      ∧ school (core v') = (λ sc, with_members sc l) <$> school (core v)
      ∧ selectedMembers (core v') = selectedMembers (core v)
      ∧ hubs v' = hubs v
      ∧ isInviteDialogOpen v' = false
      ∧ showToast v' = true
  | None => v' = v
  end
  ∧ requests (trace (handleInviteMembers emails) v) =
      req :: (if succeeded (net req) then [members_request] else []).
Proof.
  cbv zeta.
  unfold final_state, trace, run, AdminView.handleInviteMembers,
    refreshed_members, succeeded, PostPageMore.delivered.
  unfold_view.
  destruct (net _) as [|st pl]; cbn [state log status payload snd];
    [by split|].
  destruct ((200 <=? st) && (st <=? 299)); cbn [negb state log status payload snd];
    [|by split].
  destruct (net_members _) as [|st2 [l|]]; cbn [state log status payload snd];
    [by split| |];
    destruct ((200 <=? st2) && (st2 <=? 299));
    cbn [negb state log status payload snd]; by repeat split.
Qed.

End Removing.

Section Hubs.
Variable backend : string.
Variable fetch_error : string.
Variable net_hub : Request → FetchOutcome (option string).

Local Abbreviation handleHubDelete :=
  (handleHubDelete backend fetch_error net_hub).
Local Abbreviation hub_delete_request := (hub_delete_request backend).

Ltac unfold_hub :=
  unfold try_finally, try_catch, modify, get, await_fetch, fetch, json, alert,
    console_error, emit, throw, mbind, mret, M_bind, M_ret, bind, ret, ok;
  cbn [state log status payload].

(** [handleHubDelete] for a picked hub, from any world: only the hub list,
    the toast and the pick change. *)
Lemma handleHubDelete_from (h : Z) (w : World View) :
  hubToDelete (state w) = Some h →
  h ≠ 0 →
  let v := state w in
  let req := hub_delete_request h in
  ∃ t msg,
    handleHubDelete w =
      (Value (),
       {| state :=
            set_hubToDelete None
              (set_showToast true
                 (if succeeded (net_hub req)
                  then set_toastMessage
                         {| toast_title := "Hub Deleted";
                            toast_description :=
                              "The hub has been successfully deleted.";
                            toast_emoji := "ðŸ—‘ï¸" |}
                         (set_hubs (filter (λ x, hub_id x ≠ h) (hubs v)) v)
                  else set_toastMessage
                         {| toast_title := "Error Deleting Hub";
                            toast_description := msg;
                            toast_emoji := "âŒ" |} v));
          log := log w ++ t |})
    ∧ requests t = [req]
    ∧ msg = match net_hub req with
            | Rejected => fetch_error
            | Resolved st pl => hub_error_message {| status := st; payload := pl |}
            end.
Proof.
  intros Hh Hne. cbv zeta. unfold AdminView.handleHubDelete, succeeded.
  unfold get, mbind at 1, M_bind at 1, bind at 1. cbn [state log].
  rewrite Hh, decide_False by done. unfold_hub.
  destruct (net_hub _) as [|st pl]; cbn [state log status payload].
  { do 2 eexists. split; [rewrite <- !app_assoc; reflexivity|by split]. }
  destruct ((200 <=? st) && (st <=? 299)); cbn [negb state log status payload];
    do 2 eexists; (split; [rewrite <- !app_assoc; reflexivity|by split]).
Qed.

(** X21.  A hub leaves the list only when its DELETE succeeds: for a
    picked hub, one request is issued, the pick is cleared and a toast is
    shown in every case, and the hub list is the old list without that id
    after a success and the old list, untouched, after a rejection or a
    status outside 200-299.  With no hub picked, or with id 0 picked, the
    handler does nothing, and the pick stays. *)
Theorem handleHubDelete_respects_status (v : View) :
  (∀ h, hubToDelete v = Some h → h ≠ 0 →
     let v' := final_state handleHubDelete v in
     hubs v' = (if succeeded (net_hub (hub_delete_request h))
                then filter (λ x, hub_id x ≠ h) (hubs v)
                else hubs v)
     ∧ hubToDelete v' = None
     ∧ showToast v' = true
     ∧ core v' = core v
     ∧ requests (trace handleHubDelete v) = [hub_delete_request h])
  ∧ (hubToDelete v = None ∨ hubToDelete v = Some 0 →
     run handleHubDelete v = (Value (), {| state := v; log := [] |})).
Proof.
  split.
  - intros h Hh Hne. cbv zeta. unfold final_state, trace, run.
    destruct (handleHubDelete_from h {| state := v; log := [] |} Hh Hne)
      as (t & msg & -> & Hreq & _).
    cbn [state log snd app]. rewrite Hreq.
    destruct (succeeded _); by repeat split.
  - intros Hh. unfold run, AdminView.handleHubDelete, get, mbind, M_bind, bind.
    cbn [state log]. destruct Hh as [->| ->]; [reflexivity|].
    by rewrite decide_True.
Qed.

(** X22.  When the server refuses a hub deletion (status outside
    200-299), the toast is titled "Error Deleting Hub" and its description
    is the [detail] of the error body when there is a non-empty one, and
    otherwise (no detail, empty detail, or a body that cannot be decoded)
    the fallback naming the status. *)
Theorem handleHubDelete_error_message (v : View) (h st : Z)
    (pl : option (option string)) :
  hubToDelete v = Some h →
  h ≠ 0 →
  net_hub (hub_delete_request h) = Resolved st pl →
  (200 <=? st) && (st <=? 299) = false →
  toast_title (toastMessage (final_state handleHubDelete v)) = "Error Deleting Hub"
  ∧ toast_description (toastMessage (final_state handleHubDelete v)) =
      match pl with
      | Some (Some detail) =>
          if decide (detail = EmptyString)
          then "Failed to delete hub (status: " +:+ pretty st +:+ ")"
          else detail
      | _ => "Failed to delete hub (status: " +:+ pretty st +:+ ")"
      end.
Proof.
  intros Hh Hne Hnet Hst. unfold final_state, run.
  destruct (handleHubDelete_from h {| state := v; log := [] |} Hh Hne)
    as (t & msg & -> & _ & ->).
  cbn [state snd]. unfold succeeded. rewrite Hnet, Hst.
  by destruct pl as [[d|]|].
Qed.

(** X23.  Creating a hub and then deleting it gives the hub list back:
    if the new hub's id is not 0 and not the id of a listed hub, and the
    DELETE succeeds, the list after "created", "pick for deletion" and
    "confirm" is the list before. *)
Theorem hub_created_then_deleted (newHub : Hub) (v : View) :
  hub_id newHub ≠ 0 →
  (∀ x, x ∈ hubs v → hub_id x ≠ hub_id newHub) →
  succeeded (net_hub (hub_delete_request (hub_id newHub))) = true →
  hubs (final_state (handleHubCreated newHub;;
                     pickHubToDelete newHub;;
                     handleHubDelete) v) = hubs v
  ∧ hubs (final_state (handleHubCreated newHub) v) = hubs v ++ [newHub].
Proof.
  intros Hne Hfresh Hok. split; [|reflexivity].
  unfold final_state, run, handleHubCreated, pickHubToDelete, modify,
    mbind, M_bind, bind. cbn [state log].
  match goal with
  | |- context [handleHubDelete ?w] =>
      destruct (handleHubDelete_from (hub_id newHub) w eq_refl Hne)
        as (t & msg & -> & _ & _)
  end.
  cbn [state snd]. rewrite Hok. cbn [hubs set_hubToDelete set_showToast
    set_toastMessage set_hubs].
  rewrite filter_app, filter_cons_False, filter_nil, app_nil_r by (by intros ?).
  revert Hfresh. generalize (hubs v). clear.
  induction l as [|x l IH]; intros Hfresh; [reflexivity|].
  rewrite filter_cons_True by (apply Hfresh; by left).
  f_equal. apply IH. intros y Hy. apply Hfresh. by right.
Qed.

(** X24.  [getBorderColor] picks one of the eight colours for every hub
    id that is not negative, the same one for ids that differ by 8; for a
    negative id that is not a multiple of 8 the index is negative and no
    colour is read. *)
Theorem getBorderColor_range (hub : Hub) :
  (0 ≤ hub_id hub →
   (∃ c, getBorderColor hub = Some c ∧ c ∈ colors)
   ∧ getBorderColor {| hub_id := hub_id hub + 8; hub_name := hub_name hub;
                       hub_description := hub_description hub |} =
     getBorderColor hub)
  ∧ (hub_id hub < 0 → Z.rem (hub_id hub) 8 ≠ 0 → getBorderColor hub = None).
Proof.
  unfold getBorderColor. cbn [length colors hub_id].
  change (Z.of_nat 8) with 8. split.
  - intros Hpos.
    assert (Hr : 0 ≤ Z.rem (hub_id hub) 8 < 8) by (apply Z.rem_bound_pos; lia).
    assert (Hr8 : Z.rem (hub_id hub + 8) 8 = Z.rem (hub_id hub) 8).
    { rewrite !Z.rem_mod_nonneg by lia.
      replace (hub_id hub + 8) with (hub_id hub + 1 * 8) by lia.
      apply Z.mod_add. lia. }
    rewrite Hr8. split; [|reflexivity].
    destruct (Z.rem (hub_id hub) 8 <? 0) eqn:E; [apply Z.ltb_lt in E; lia|].
    destruct (colors !! Z.to_nat (Z.rem (hub_id hub) 8)) as [c|] eqn:Hc.
    + exists c. split; [reflexivity|]. by eapply list_elem_of_lookup_2.
    + apply lookup_ge_None in Hc. cbn [length colors] in Hc. lia.
  - intros Hneg Hnz.
    assert (Hr : Z.rem (hub_id hub) 8 ≤ 0).
    { apply Z.rem_nonpos; lia. }
    rewrite (proj2 (Z.ltb_lt _ _)) by lia. reflexivity.
Qed.

End Hubs.

Section Tabs.



End Tabs.

(** *** The theorems at concrete inputs *)

Lemma select_all_checks_header_witness :
  areAllMembersSelected (Some "2")
    (final_state (click (Some "2") (ClickSelectAll true)) sample_loaded) = true.
Proof.
  exact (proj1 (select_all_checks_header (Some "2") sample_loaded)).
Defined.

Lemma handleMemberSelection_toggles_witness :
  ∃ m, m ∈ selectedMembers
             (final_state (handleMemberSelection (Some "2") sample_A)
                          sample_loaded)
       ∧ member_id m = 3.
Proof.
  apply (proj1 (proj1 (handleMemberSelection_toggles (Some "2") sample_A
                         sample_loaded) eq_refl)).
  intros (m & Hm & _). by apply elem_of_nil in Hm.
Defined.

Lemma handleMemberSelection_twice_witness :
  final_state (handleMemberSelection (Some "2") sample_A;;
               handleMemberSelection (Some "2") sample_A) sample_loaded
  = sample_loaded.
Proof.
  apply (handleMemberSelection_twice (Some "2") sample_A sample_loaded eq_refl).
  intros m Hm. by apply elem_of_nil in Hm.
Defined.

Lemma confirmDeleteMember_nothing_to_remove_witness :
  run (confirmDeleteMember "https://api.test" "5" "Failed to fetch"
                           admin_ok members_ok) sample_view =
  (Value (), {| state := sample_view; log := [] |}).
Proof.
  exact (confirmDeleteMember_nothing_to_remove "https://api.test" "5"
           "Failed to fetch" admin_ok members_ok sample_view eq_refl).
Defined.

Lemma confirmDeleteMember_cleans_up_witness :
  selectedMembers (core (final_state
    (confirmDeleteMember "https://api.test" "5" "Failed to fetch"
                         admin_fail members_ok) ticked_view)) = []
  ∧ school (core (final_state
      (confirmDeleteMember "https://api.test" "5" "Failed to fetch"
                           admin_fail members_ok) ticked_view)) =
    Some sample_school.
Proof.
  destruct (confirmDeleteMember_cleans_up "https://api.test" "5"
              "Failed to fetch" admin_fail members_ok ticked_view)
    as (Hsel & _ & _ & _ & Hschool & _); [discriminate|].
  exact (conj Hsel Hschool).
Defined.

Lemma remove_single_member_witness :
  head (requests (trace (zoom (handleDeleteMember (Some "2") sample_B);;
                         confirmDeleteMember "https://api.test" "5"
                           "Failed to fetch" admin_ok members_ok)
                        ticked_view)) =
  Some (remove_request "https://api.test" "5" [sample_B]).
Proof.
  exact (proj1 (proj1 (remove_single_member "https://api.test" "5" (Some "2")
                         "Failed to fetch" admin_ok members_ok sample_B
                         ticked_view) eq_refl)).
Defined.

Lemma sample_view_selection_ok : selection_ok (Some "2") (core sample_view).
Proof. intros member Hm. by apply elem_of_nil in Hm. Defined.

Lemma bulk_removal_spares_owner_and_self_witness :
  head (requests
          (trace (zoom (clicks (Some "2")
                          [ClickSelectAll true; ClickMember 0; ClickMember 1]);;
                  zoom handleDeleteSelectedMembers;;
                  confirmDeleteMember "https://api.test" "5" "Failed to fetch"
                                      admin_ok members_ok)
                 sample_view)) =
    Some {| url := "https://api.test/organizations/5/members";
            method := DELETE;
            headers := [("Content-Type", "application/json")];
            body := Some (JObj [("user_ids", JArr [JNum 3; JNum 4])]) |}
  ∧ Forall (λ i, Some "2" ≠ Some (pretty i)) [3; 4]
  ∧ member_id sample_owner ∉ [3; 4].
Proof.
  destruct (bulk_removal_spares_owner_and_self "https://api.test" "5"
              (Some "2") "Failed to fetch" admin_ok members_ok
              [ClickSelectAll true; ClickMember 0; ClickMember 1] sample_view
              sample_school eq_refl sample_view_selection_ok
              (λ m Hm, False_ind _ (proj1 (elem_of_nil m) Hm)))
    as (_ & _ & Hhead & Hself & _ & Howner).
  split; [|split].
  - apply Hhead. discriminate.
  - apply Forall_forall. exact Hself.
  - apply Howner.
    + vm_compute. repeat (apply NoDup_cons; split;
        [intros Hin; repeat (apply elem_of_cons in Hin as [Hin|Hin];
                             [discriminate Hin|]);
         by apply elem_of_nil in Hin|]).
      apply NoDup_nil. exact I.
    + apply elem_of_cons. by left.
    + reflexivity.
Defined.

Lemma handleHubDelete_respects_status_witness :
  hubs (final_state (handleHubDelete "https://api.test" "Failed to fetch"
                                     hub_refused) picked_hub_view)
    = [hub_general; hub_help]
  ∧ hubs (final_state (handleHubDelete "https://api.test" "Failed to fetch"
                                       hub_ok) picked_hub_view)
    = [hub_general].
Proof.
  split.
  - exact (proj1 (proj1 (handleHubDelete_respects_status "https://api.test"
                           "Failed to fetch" hub_refused picked_hub_view)
                    11 eq_refl ltac:(discriminate))).
  - exact (proj1 (proj1 (handleHubDelete_respects_status "https://api.test"
                           "Failed to fetch" hub_ok picked_hub_view)
                    11 eq_refl ltac:(discriminate))).
Defined.

Lemma handleHubDelete_error_message_witness :
  toast_description
    (toastMessage (final_state (handleHubDelete "https://api.test"
                                  "Failed to fetch" hub_refused)
                               picked_hub_view)) = "Hub still has posts".
Proof.
  exact (proj2 (handleHubDelete_error_message "https://api.test"
                  "Failed to fetch" hub_refused picked_hub_view 11 409
                  (Some (Some "Hub still has posts")) eq_refl
                  ltac:(discriminate) eq_refl eq_refl)).
Defined.

Lemma hub_new_is_new : ∀ x, x ∈ hubs sample_view → hub_id x ≠ hub_id hub_new.
Proof.
  intros x Hx.
  apply elem_of_cons in Hx as [->|Hx]; [discriminate|].
  apply elem_of_cons in Hx as [->|Hx]; [discriminate|].
  by apply elem_of_nil in Hx.
Defined.

Lemma hub_created_then_deleted_witness :
  hubs (final_state (handleHubCreated hub_new;;
                     pickHubToDelete hub_new;;
                     handleHubDelete "https://api.test" "Failed to fetch" hub_ok)
                    sample_view) = [hub_general; hub_help].
Proof.
  exact (proj1 (hub_created_then_deleted "https://api.test" "Failed to fetch"
                  hub_ok hub_new sample_view ltac:(discriminate)
                  hub_new_is_new eq_refl)).
Defined.

Lemma getBorderColor_range_witness :
  ∃ c, getBorderColor hub_help = Some c ∧ c ∈ colors.
Proof.
  apply (proj1 (getBorderColor_range hub_help)). discriminate.
Defined.


End AdminViewSpec.

(** ** Properties of the hub creation dialog *)
Module HubDialogSpec.
Import SchoolAdmin AdminView HubDialog.

Section Submitting.
Variable backend : string.
Variable schoolId : string.
Variable fetch_error : string.
Variable json_error : string.
Variable net_create : Request → FetchOutcome Hub.
Variable trim : string → string.
Variable parseInt : string → option Z.

Local Abbreviation handleSubmit :=
  (handleSubmit backend schoolId fetch_error json_error net_create trim parseInt).
Local Abbreviation create_request := (create_request backend schoolId parseInt).

(** X26.  Submitting a name that is blank after trimming only shows
    "Hub name is required.": no request is issued, the dialog stays as
    open as it was, and the admin view is untouched. *)
Theorem handleSubmit_requires_name (d : Dialog) :
  trim (name d) = EmptyString →
  final_state handleSubmit d = set_error "Hub name is required." d
  ∧ requests (trace handleSubmit d) = []
  ∧ parent (final_state handleSubmit d) = parent d
  ∧ open (final_state handleSubmit d) = open d.
Proof.
  intros Hblank.
  unfold final_state, trace, run, HubDialog.handleSubmit, get, modify,
    mbind, M_bind, bind.
  cbn [state log]. rewrite decide_True by done. by repeat split.
Qed.

(** X27.  A hub reaches the admin view's list only when the creation
    request succeeded with a decodable body: then it is appended at the
    end, the toast is shown and the dialog is closed with no error.  In
    every other case the admin view is exactly as before, the dialog stays
    open and shows the error (for a status outside 200-299, "Failed to
    create hub. Please try again.").  One request is issued and
    [isLoading] always ends lowered. *)
Theorem handleSubmit_all_or_nothing (d : Dialog) :
  trim (name d) ≠ EmptyString →
  let d' := final_state handleSubmit d in
  let req := create_request d in
  isLoading d' = false
  ∧ requests (trace handleSubmit d) = [req]
  ∧ match PostPageMore.delivered (net_create req) with
    | Some hub =>
        hubs (parent d') = hubs (parent d) ++ [hub]
        ∧ showToast (parent d') = true
        ∧ core (parent d') = core (parent d)
        ∧ open d' = false
        ∧ error d' = EmptyString
    | None =>
        parent d' = parent d
        ∧ open d' = open d
        ∧ error d' =
            match net_create req with
            | Rejected => fetch_error
            | Resolved st pl =>
                if (200 <=? st) && (st <=? 299) then json_error
                else "Failed to create hub. Please try again."
            end
    end.
Proof.
  intros Hname. cbv zeta.
  unfold final_state, trace, run, HubDialog.handleSubmit, PostPageMore.delivered.
  unfold try_finally, try_catch, modify, get, await_fetch, fetch, throw,
    in_parent, handleHubCreated, mbind, mret, M_bind, M_ret, bind, ret, ok.
  cbn [state log status payload].
  rewrite !decide_False by done.
  destruct (net_create _) as [|st [hub|]]; cbn [state log status payload snd];
    [by repeat split| |];
    destruct ((200 <=? st) && (st <=? 299));
    cbn [negb state log status payload snd]; by repeat split.
Qed.

End Submitting.

(** *** The theorems at concrete inputs *)

Lemma handleSubmit_requires_name_witness :
  requests (trace (handleSubmit "https://api.test" "5" "Failed to fetch"
                     "Unexpected end of JSON input" create_ok
                     PostPageMore.sample_trim PostPageMore.sample_parseInt)
                  (sample_dialog "   ")) = [].
Proof.
  exact (proj1 (proj2 (handleSubmit_requires_name "https://api.test" "5"
                         "Failed to fetch" "Unexpected end of JSON input"
                         create_ok PostPageMore.sample_trim
                         PostPageMore.sample_parseInt (sample_dialog "   ")
                         eq_refl))).
Defined.

Lemma handleSubmit_all_or_nothing_witness :
  hubs (parent (final_state
                  (handleSubmit "https://api.test" "5" "Failed to fetch"
                     "Unexpected end of JSON input" create_ok
                     PostPageMore.sample_trim PostPageMore.sample_parseInt)
                  (sample_dialog "Events"))) =
    [hub_general; hub_help; hub_new]
  ∧ hubs (parent (final_state
                    (handleSubmit "https://api.test" "5" "Failed to fetch"
                       "Unexpected end of JSON input" create_refused
                       PostPageMore.sample_trim PostPageMore.sample_parseInt)
                    (sample_dialog "Events"))) =
    [hub_general; hub_help].
Proof.
  split.
  - destruct (handleSubmit_all_or_nothing "https://api.test" "5"
                "Failed to fetch" "Unexpected end of JSON input" create_ok
                PostPageMore.sample_trim PostPageMore.sample_parseInt
                (sample_dialog "Events"))
      as (_ & _ & Hhubs & _); [vm_compute; discriminate|].
    exact Hhubs.
  - destruct (handleSubmit_all_or_nothing "https://api.test" "5"
                "Failed to fetch" "Unexpected end of JSON input" create_refused
                PostPageMore.sample_trim PostPageMore.sample_parseInt
                (sample_dialog "Events"))
      as (_ & _ & Hparent & _); [vm_compute; discriminate|].
    exact (f_equal hubs Hparent).
Defined.

End HubDialogSpec.
